(** * wildboar: the subsequence-distance facade ([wildboar/distance/_distance.pyx])

    A shallow embedding of the Cython module [_distance.pyx]: the C structs
    [TSDatabase], [TSView] and [TSCopy], the class [DistanceMeasure] with its
    subclasses [ScaledDistanceMeasure] and [FuncDistanceMeasure], and the
    Python-level entry points [distance] and [matches].

    Conventions of the embedding.
    - A C [double] is a primitive binary64 float, so that [NAN], division by
      zero and [sqrt] behave as in the compiled module.
    - A [size_t] is a [Z] in [0, 2^64); the offset arithmetic wraps
      ([size_t_wrap]) and a Python integer is coerced with [as_size_t].
    - A Python exception is a value of [exn]; a function that may raise
      returns a [result].
    - An exception raised inside a [cdef] function that returns a C value
      and declares no [except] clause does not reach the caller: the code
      Cython 0.29 generates (the version the repository builds with) reports
      it and drops it, and the function returns 0, 0.0 or, for a struct, an
      indeterminate value ([unraisable]).  [ts_copy_sub_matches] is declared
      [except -1], and the functions that return Python objects propagate.
    - [malloc] and [free] act on a [world]: an allocation oracle, a block
      counter and a chronological [trace] of allocation events and of the
      calls into the distance kernels.  Functions that touch it live in the
      state-and-exception monad [M].
    - Reading through [NULL] or outside a buffer is undefined behaviour in
      the source (bounds checks are switched off); the model stops with
      [Fault] there.
    - What the module imports and this file cannot see (scikit-learn's
      [check_array], [np.mean], [np.std], the metric classes of
      [_euclidean_distance] and [_dtw_distance], [check_array_fast], the
      contents of uninitialised C locals) is gathered in the record [Env]. *)

From Stdlib Require Import ZArith List String Bool Lia.
From Stdlib Require Import Floats.PrimFloat Floats.SpecFloat Floats.FloatOps.
Import ListNotations.
Local Open Scope Z_scope.

(* ------------------------------------------------------------------ *)
(** ** Exceptions and results *)

(** The [ValueError]s of the module, by the message they format. *)
Inductive value_error : Type :=
| IllegalSample (sample : Z)          (* "illegal sample {}" *)
| IllegalDimension (dim : Z)          (* "illegal dimension {}" *)
| Only1dShapelets                     (* "only 1d shapelets allowed" *)
| NdimOutOfRange (ndim : Z)           (* "ndim {0} < 2 or {0} > 3" *)
| MetricNotSupported (metric : string)(* "metric (%s) is not supported" *)
| UnknownMetric                       (* "unknown metric, got %r" *)
| LengthsDiffer (l t : Z)             (* "x.shape[0] != y.shape[-1], got %r, %r" *)
| LengthTooLong (l t : Z)             (* "x.shape[0] > y.shape[-1], got %r, %r" *)
| InvalidArray.                       (* raised inside check_array *)

Inductive exn : Type :=
| ValueError (why : value_error)
| NotImplementedError
| TypeError
| OverflowError
| MemoryError
| IndexError
| Fault.

Inductive result (A : Type) : Type :=
| OK (a : A)
| Raise (e : exn).
Arguments OK {A} a.
Arguments Raise {A} e.

Definition bindR {A B} (r : result A) (k : A -> result B) : result B :=
  match r with
  | OK a => k a
  | Raise e => Raise e
  end.

Notation "'let!' x ':=' c 'in' k" := (bindR c (fun x => k))
  (at level 10, x pattern, c at level 100, k at level 200).

(** The outcome of a [cdef] function without [except] clause whose body
    has the outcome [r]: an exception is dropped and [default] is returned.
    [Fault] is no exception but the model's stop at undefined behaviour. *)
Definition unraisable {A} (default : A) (r : result A) : result A :=
  match r with
  | OK a => OK a
  | Raise Fault => Raise Fault
  | Raise _ => OK default
  end.

Fixpoint mapR {A B} (f : A -> result B) (l : list A) : result (list B) :=
  match l with
  | [] => OK []
  | a :: l' => let! b := f a in let! bs := mapR f l' in OK (b :: bs)
  end.

(* ------------------------------------------------------------------ *)
(** ** The heap, the trace and the monad *)

Inductive pointer : Type :=
| NULL
| Block (id : nat).

(** A typed pointer together with the cells it points to. *)
Record buffer (A : Type) : Type := mkBuffer {
  address : pointer;
  cells : list A
}.
Arguments mkBuffer {A} address cells.
Arguments address {A} b.
Arguments cells {A} b.

Definition null_buffer {A} : buffer A := mkBuffer NULL [].

(** The three distance kernels the facade calls into. *)
Inductive kernel : Type :=
| K_sub_distance
| K_distance
| K_sub_matches.

Inductive event : Type :=
| EvMalloc (bytes : Z) (p : pointer)   (* malloc of the module itself *)
| EvHandOver (p : pointer)             (* a buffer allocated by a kernel and owned by the caller *)
| EvFree (p : pointer)
| EvKernel (k : kernel) (t_index : Z). (* a kernel is entered for sample t_index *)

Record world : Type := mkWorld {
  malloc_succeeds : nat -> bool;   (* does the n-th allocation succeed? *)
  brk : nat;                       (* number of allocations so far *)
  trace : list event
}.

Definition init_world (oracle : nat -> bool) : world := mkWorld oracle 0 [].

Definition M (A : Type) : Type := world -> world * result A.

Definition ret {A} (a : A) : M A := fun w => (w, OK a).
Definition raise {A} (e : exn) : M A := fun w => (w, Raise e).
Definition bind {A B} (c : M A) (k : A -> M B) : M B :=
  fun w => match c w with
           | (w', OK a) => k a w'
           | (w', Raise e) => (w', Raise e)
           end.
Definition lift {A} (r : result A) : M A := fun w => (w, r).
Definition log (ev : event) : M unit :=
  fun w => (mkWorld (malloc_succeeds w) (brk w) (trace w ++ [ev]), OK tt).

Notation "x <- c ;; k" := (bind c (fun x => k))
  (at level 61, c at next level, right associativity).
Notation "' pat <- c ;; k" := (bind c (fun x => match x with pat => k end))
  (at level 61, pat pattern, c at next level, right associativity).
Notation "c ;;; k" := (bind c (fun _ => k))
  (at level 61, right associativity).

(** [malloc]: [NULL] when the oracle refuses, a fresh block otherwise. *)
Definition malloc (bytes : Z) : M pointer :=
  fun w =>
    let p := if malloc_succeeds w (brk w) then Block (brk w) else NULL in
    (mkWorld (malloc_succeeds w) (S (brk w)) (trace w ++ [EvMalloc bytes p]), OK p).

Definition free (p : pointer) : M unit := log (EvFree p).

(** A buffer a kernel allocated and hands to its caller. *)
Definition hand_over {A} (contents : list A) : M (buffer A) :=
  fun w =>
    let p := Block (brk w) in
    (mkWorld (malloc_succeeds w) (S (brk w)) (trace w ++ [EvHandOver p]),
     OK (mkBuffer p contents)).

(* ------------------------------------------------------------------ *)
(** ** Machine numbers *)

Definition size_t_modulus : Z := 2 ^ 64.
Definition size_t_wrap (z : Z) : Z := z mod size_t_modulus.

(** Coercion of a Python [int] to [size_t] at a call boundary. *)
Definition as_size_t (z : Z) : result Z :=
  if z <? 0 then Raise OverflowError
  else if size_t_modulus <=? z then Raise OverflowError
  else OK z.

Definition sizeof_double : Z := 8.

Definition NAN : float := nan.

(** Conversion of an integer to [double], rounding to nearest. *)
Definition double_of_Z (z : Z) : float :=
  SF2Prim (binary_normalize prec emax z 0 false).

(** [buf[i]] *)
Definition read_cells {A} (cs : list A) (i : Z) : result A :=
  if i <? 0 then Raise Fault
  else match nth_error cs (Z.to_nat i) with
       | Some a => OK a
       | None => Raise Fault
       end.

Definition read {A} (b : buffer A) (i : Z) : result A :=
  match address b with
  | NULL => Raise Fault
  | Block _ => read_cells (cells b) i
  end.

(** [arr[i]] on a Python object, bounds-checked by the interpreter. *)
Definition getitem {A} (cs : list A) (i : Z) : result A :=
  match nth_error cs (Z.to_nat i) with
  | Some a => OK a
  | None => Raise IndexError
  end.

(** [range(n)] for a [size_t] bound. *)
Definition range (n : Z) : list Z := map Z.of_nat (seq 0 (Z.to_nat n)).

(* ------------------------------------------------------------------ *)
(** ** Arrays *)

(** A float64 [np.ndarray] in C order: its shape and its flat contents.
    [check_array] is called with [order="c"], so the branches
    [if not x.flags.c_contiguous] of the validators are not taken. *)
Record ndarray : Type := mkArray {
  shape : list Z;
  flat : list float      (* the cells behind [arr.data], row-major *)
}.

Definition ndim (a : ndarray) : Z := Z.of_nat (List.length (shape a)).
Definition itemsize : Z := sizeof_double.

Fixpoint c_strides (sh : list Z) : list Z :=
  match sh with
  | [] => []
  | _ :: rest => (itemsize * fold_right Z.mul 1 rest) :: c_strides rest
  end.

Definition strides (a : ndarray) : list Z := c_strides (shape a).

Definition shape_at (a : ndarray) (k : Z) : Z := nth (Z.to_nat k) (shape a) 0.
Definition stride_at (a : ndarray) (k : Z) : Z := nth (Z.to_nat k) (strides a) 0.

(** [x.reshape(-1, x.shape[0])] of a one-dimensional array. *)
Definition reshape_row (a : ndarray) : ndarray :=
  mkArray [1; shape_at a 0] (flat a).

(* ------------------------------------------------------------------ *)
(** ** The C structs *)

Record TSDatabase : Type := mkTSDatabase {
  n_samples : Z;
  n_timestep : Z;
  n_dims : Z;
  td_data : list float;
  sample_stride : Z;
  timestep_stride : Z;
  dim_stride : Z
}.

Record TSView : Type := mkTSView {
  tv_index : Z;
  tv_start : Z;
  tv_length : Z;
  tv_dim : Z;
  tv_mean : float;
  tv_std : float;
  tv_extra : pointer
}.

Record TSCopy : Type := mkTSCopy {
  tc_length : Z;
  tc_dim : Z;
  tc_mean : float;
  tc_std : float;
  tc_data : buffer float;
  ts_start : Z;
  ts_index : Z
}.

(** Field updates, written [p[0].f = v] in the source. *)
Definition set_mean (v : float) (s : TSView) : TSView :=
  mkTSView (tv_index s) (tv_start s) (tv_length s) (tv_dim s) v (tv_std s) (tv_extra s).
Definition set_std (v : float) (s : TSView) : TSView :=
  mkTSView (tv_index s) (tv_start s) (tv_length s) (tv_dim s) (tv_mean s) v (tv_extra s).

Definition ts_copy_init (shapelet : TSCopy) (dim length : Z) (mean std : float)
  : M (Z * TSCopy) :=
  p <- malloc (size_t_wrap (sizeof_double * length)) ;;
  let shapelet' :=
    mkTSCopy length dim mean std (mkBuffer p []) (ts_start shapelet) (ts_index shapelet) in
  match p with
  | NULL => ret (-1, shapelet')
  | Block _ => ret (0, shapelet')    (* falls off the end: the default return value *)
  end.

Definition ts_copy_free (shapelet : option TSCopy) : M unit :=
  match shapelet with
  | Some tc =>
      match address (tc_data tc) with
      | NULL => ret tt
      | Block id => free (Block id)
      end
  | None => ret tt
  end.

Definition ts_view_init (s : TSView) : TSView :=
  mkTSView 0 0 0 0 NAN NAN (tv_extra s).

Definition ts_view_free (shapelet_info : TSView) : M TSView :=
  match tv_extra shapelet_info with
  | NULL => ret shapelet_info
  | Block id =>
      free (Block id) ;;;
      ret (mkTSView (tv_index shapelet_info) (tv_start shapelet_info)
             (tv_length shapelet_info) (tv_dim shapelet_info)
             (tv_mean shapelet_info) (tv_std shapelet_info) NULL)
  end.

(** The running sums of [_ts_view_update_statistics]; [current_value ** 2]
    is the product of the value with itself. *)
Fixpoint sum_and_squares (t : TSDatabase) (shapelet_offset : Z) (indices : list Z)
  (ex ex2 : float) : result (float * float) :=
  match indices with
  | [] => OK (ex, ex2)
  | i :: rest =>
      let! current_value :=
        read_cells (td_data t) (size_t_wrap (shapelet_offset + i * timestep_stride t)) in
      sum_and_squares t shapelet_offset rest
        (ex + current_value)%float (ex2 + current_value * current_value)%float
  end.

(** [_ts_view_update_statistics(s_ptr, t_ptr)]: returns the return code and
    the struct behind [s_ptr] after the call.  The source copies [s_ptr[0]]
    into the local [s] and assigns the statistics to that local. *)
Definition _ts_view_update_statistics (s_ptr : TSView) (t_ptr : TSDatabase)
  : result (Z * TSView) :=
  let t := t_ptr in
  let s := s_ptr in
  let shapelet_offset :=
    size_t_wrap (tv_index s * sample_stride t +
                 tv_dim s * dim_stride t +
                 tv_start s * timestep_stride t) in
  let! (ex, ex2) := sum_and_squares t shapelet_offset (range (tv_length s)) 0%float 0%float in
  (* from here on the assignments go to the local [s] *)
  let s := set_mean (ex / double_of_Z (tv_length s))%float s in
  let s := set_std (sqrt (ex2 / double_of_Z (tv_length s) - tv_mean s * tv_mean s))%float s in
  OK (0, s_ptr).

(** The statistics the local [s] holds when [_ts_view_update_statistics]
    returns (never stored by the source; used to state what is lost). *)
Definition local_statistics (s : TSView) (t : TSDatabase) : result (float * float) :=
  let shapelet_offset :=
    size_t_wrap (tv_index s * sample_stride t +
                 tv_dim s * dim_stride t +
                 tv_start s * timestep_stride t) in
  let! (ex, ex2) := sum_and_squares t shapelet_offset (range (tv_length s)) 0%float 0%float in
  let mean := (ex / double_of_Z (tv_length s))%float in
  OK (mean, sqrt (ex2 / double_of_Z (tv_length s) - mean * mean)%float).

(* ------------------------------------------------------------------ *)
(** ** Python-level arguments *)

(** A user-supplied metric: a function of two buffers. *)
Definition callable : Type := list float -> list float -> result float.

Inductive py_metric : Type :=
| MetricStr (name : string)
| MetricCallable (func : callable)
| MetricOther.

(** The argument [sample]: [None], an [int], or a sequence of integers. *)
Inductive py_sample : Type :=
| SampleNone
| SampleInt (z : Z)
| SampleSeq (l : list Z).

Definition kwargs : Type := list (string * float).

(* ------------------------------------------------------------------ *)
(** ** The class [DistanceMeasure]

    An instance is the record of its virtual methods.  A method that takes
    an out-pointer returns the value stored through it.  The two distance
    kernels return a [double] and declare no [except] clause, so what is
    raised inside them is dropped ([unraisable]); [ts_copy_sub_matches]
    propagates. *)

Record DistanceMeasure : Type := mkDistanceMeasure {
  self_n_timestep : Z;
  init_ts_view :
    TSDatabase -> TSView -> Z -> Z -> Z -> Z -> result (Z * TSView);
  init_ts_copy_from_ndarray :
    TSCopy -> ndarray -> Z -> M (Z * TSCopy);
  ts_view_sub_distance :
    TSView -> TSDatabase -> Z -> result float;
  (* the distance and, when the kernel stores it, the best position *)
  ts_copy_sub_distance :
    TSCopy -> TSDatabase -> Z -> result (float * option Z);
  (* the cells of [matches] and [distances], and [n_matches] *)
  ts_copy_sub_matches :
    TSCopy -> TSDatabase -> Z -> float -> result (list Z * list float * Z);
  ts_copy_distance :
    TSCopy -> TSDatabase -> Z -> result float;
  support_unaligned : bool
}.

Module Base.

Definition init_ts_view (_td : TSDatabase) (shapelet_info : TSView)
  (index start length dim : Z) : result (Z * TSView) :=
  OK (0, mkTSView index start length dim NAN NAN NULL).

Definition init_ts_copy_from_ndarray (tc : TSCopy) (arr : ndarray) (dim : Z)
  : M (Z * TSCopy) :=
  let length := shape_at arr 0 in
  p <- malloc (size_t_wrap (length * sizeof_double)) ;;
  match p with
  | NULL =>
      ret (-1, mkTSCopy length dim NAN NAN (mkBuffer NULL []) (ts_start tc) (ts_index tc))
  | Block _ =>
      values <- lift (mapR (getitem (flat arr)) (range length)) ;;
      ret (0, mkTSCopy length dim NAN NAN (mkBuffer p values) (ts_start tc) (ts_index tc))
  end.

Definition ts_view_sub_distance (tv : TSView) (td : TSDatabase) (t_index : Z)
  : result float := unraisable 0%float (Raise NotImplementedError).

Definition ts_copy_sub_distance (s : TSCopy) (td : TSDatabase) (t_index : Z)
  : result (float * option Z) :=
  unraisable (0%float, None) (Raise NotImplementedError).

Definition ts_copy_sub_matches (s : TSCopy) (td : TSDatabase) (t_index : Z)
  (threshold : float) : result (list Z * list float * Z) :=
  Raise NotImplementedError.

(** [return self.ts_copy_sub_distance(s, td, t_index)], dispatched on the
    instance. *)
Definition ts_copy_distance
  (self_ts_copy_sub_distance : TSCopy -> TSDatabase -> Z -> result (float * option Z))
  (s : TSCopy) (td : TSDatabase) (t_index : Z) : result float :=
  let! (d, _) := self_ts_copy_sub_distance s td t_index in OK d.

Definition support_unaligned : bool := false.

(** [DistanceMeasure(n_timestep)] *)
Definition new (n_timestep : Z) : DistanceMeasure :=
  mkDistanceMeasure n_timestep
    init_ts_view init_ts_copy_from_ndarray
    ts_view_sub_distance ts_copy_sub_distance ts_copy_sub_matches
    (ts_copy_distance ts_copy_sub_distance)
    support_unaligned.

End Base.

(** [init_ts_copy], a method no class of the module overrides. *)
Fixpoint copy_cells (td : TSDatabase) (tc_offset : Z) (indices : list Z)
  : result (list float) :=
  match indices with
  | [] => OK []
  | i :: rest =>
      let p := size_t_wrap (tc_offset + timestep_stride td * i) in
      let! v := read_cells (td_data td) p in
      let! vs := copy_cells td tc_offset rest in
      OK (v :: vs)
  end.

Definition init_ts_copy (tc : TSCopy) (tv_ptr : TSView) (td_ptr : TSDatabase)
  : M (Z * TSCopy) :=
  let s := tv_ptr in
  let td := td_ptr in
  '(_, tc) <- ts_copy_init tc (tv_dim s) (tv_length s) (tv_mean s) (tv_std s) ;;
  let tc := mkTSCopy (tc_length tc) (tc_dim tc) (tc_mean tc) (tc_std tc) (tc_data tc)
              (tv_start s) (tv_index s) in
  let tc_offset :=
    size_t_wrap (tv_index s * sample_stride td +
                 tv_start s * timestep_stride td +
                 tv_dim s * dim_stride td) in
  match address (tc_data tc) with
  | NULL =>
      if 0 <? tv_length s then raise Fault else ret (0, tc)
  | Block _ =>
      values <- lift (copy_cells td tc_offset (range (tv_length s))) ;;
      ret (0, mkTSCopy (tc_length tc) (tc_dim tc) (tc_mean tc) (tc_std tc)
                (mkBuffer (address (tc_data tc)) values) (ts_start tc) (ts_index tc))
  end.

Module Scaled.
Section Scaled.

(** [np.mean] and [np.std] *)
Variable np_mean np_std : ndarray -> float.

Definition init_ts_copy_from_ndarray (tc : TSCopy) (arr : ndarray) (dim : Z)
  : M (Z * TSCopy) :=
  '(err, tc) <- Base.init_ts_copy_from_ndarray tc arr dim ;;
  if err =? -1 then ret (-1, tc)
  else
    let tc := mkTSCopy (tc_length tc) (tc_dim tc) (np_mean arr) (tc_std tc)
                (tc_data tc) (ts_start tc) (ts_index tc) in
    let tc := mkTSCopy (tc_length tc) (tc_dim tc) (tc_mean tc) (np_std arr)
                (tc_data tc) (ts_start tc) (ts_index tc) in
    ret (0, tc).

Definition init_ts_view (td : TSDatabase) (tv : TSView)
  (index start length dim : Z) : result (Z * TSView) :=
  let! (_, tv) := Base.init_ts_view td tv index start length dim in
  let! (_, tv) := _ts_view_update_statistics tv td in
  OK (-1, tv).

(** [ScaledDistanceMeasure(n_timestep)] *)
Definition new (n_timestep : Z) : DistanceMeasure :=
  mkDistanceMeasure n_timestep
    init_ts_view init_ts_copy_from_ndarray
    Base.ts_view_sub_distance Base.ts_copy_sub_distance Base.ts_copy_sub_matches
    (Base.ts_copy_distance Base.ts_copy_sub_distance)
    Base.support_unaligned.

End Scaled.
End Scaled.

(** [np.empty(n)]: the cells are overwritten before they are read; zeros
    stand for their unspecified contents. *)
Definition np_empty (n : Z) : list float := repeat 0%float (Z.to_nat n).

(** [buf[i] = v] on an [np.ndarray], bounds-checked by Python. *)
Fixpoint store_nat {A} (l : list A) (i : nat) (v : A) : option (list A) :=
  match l, i with
  | [], _ => None
  | _ :: l', O => Some (v :: l')
  | a :: l', S i' => option_map (cons a) (store_nat l' i' v)
  end.

Definition store {A} (l : list A) (i : Z) (v : A) : result (list A) :=
  match store_nat l (Z.to_nat i) v with
  | Some l' => OK l'
  | None => Raise IndexError
  end.

Module Func.
Section Func.

Variable self_n : Z.
Variable func : callable.

Fixpoint fill (pattern : Z -> result float) (s_length : Z) (td : TSDatabase)
  (sample_offset : Z) (indices : list Z) (x_buffer y_buffer : list float)
  : result (list float * list float) :=
  match indices with
  | [] => OK (x_buffer, y_buffer)
  | i :: rest =>
      let! x_buffer :=
        if i <? s_length
        then let! v := pattern i in store x_buffer i v
        else OK x_buffer in
      let! v := read_cells (td_data td)
                  (size_t_wrap (sample_offset + timestep_stride td * i)) in
      let! y_buffer := store y_buffer i v in
      fill pattern s_length td sample_offset rest x_buffer y_buffer
  end.

Definition ts_copy_sub_distance (s : TSCopy) (td : TSDatabase) (t_index : Z)
  : result (float * option Z) :=
  let sample_offset :=
    size_t_wrap (t_index * sample_stride td + tc_dim s * dim_stride td) in
  unraisable (0%float, None)
    (let! (x_buffer, y_buffer) :=
       fill (read (tc_data s)) (tc_length s) td sample_offset
         (range (n_timestep td)) (np_empty self_n) (np_empty self_n) in
     let! d := func (firstn (Z.to_nat (tc_length s)) x_buffer) y_buffer in
     OK (d, None)).

Definition ts_view_sub_distance (s : TSView) (td : TSDatabase) (t_index : Z)
  : result float :=
  let sample_offset :=
    size_t_wrap (t_index * sample_stride td + tv_dim s * dim_stride td) in
  let shapelet_offset :=
    size_t_wrap (tv_index s * sample_stride td +
                 tv_dim s * dim_stride td +
                 tv_start s * timestep_stride td) in
  unraisable 0%float
    (let! (x_buffer, y_buffer) :=
       fill (fun i => read_cells (td_data td)
                        (size_t_wrap (shapelet_offset + timestep_stride td * i)))
         (tv_length s) td sample_offset
         (range (n_timestep td)) (np_empty self_n) (np_empty self_n) in
     func (firstn (Z.to_nat (tv_length s)) x_buffer) y_buffer).

Definition ts_copy_distance (s : TSCopy) (td : TSDatabase) (t_index : Z)
  : result float :=
  let! (d, _) := ts_copy_sub_distance s td t_index in OK d.

Definition support_unaligned : bool := false.

(** [FuncDistanceMeasure(n_timestep, func)] *)
Definition new : DistanceMeasure :=
  mkDistanceMeasure self_n
    Base.init_ts_view Base.init_ts_copy_from_ndarray
    ts_view_sub_distance ts_copy_sub_distance Base.ts_copy_sub_matches
    ts_copy_distance
    support_unaligned.

End Func.
End Func.

(* ------------------------------------------------------------------ *)
(** ** What the module imports *)

Record Env : Type := mkEnv {
  (* sklearn.utils.check_array(a, ensure_2d=False, allow_nd=.., dtype=np.float64, order="c") *)
  check_array : bool -> ndarray -> result ndarray;
  (* sklearn.utils.check_array(sample, ensure_2d=False, dtype=np.int) *)
  check_array_int : list Z -> result (list Z);
  (* wildboar._utils.check_array_fast(data, allow_nd=True) *)
  check_array_fast : ndarray -> result ndarray;
  np_mean : ndarray -> float;
  np_std : ndarray -> float;
  (* the coercion of a sequence object to size_t at a C call *)
  size_t_of_sequence : list Z -> result Z;
  (* the classes of _euclidean_distance and _dtw_distance *)
  EuclideanDistance : Z -> kwargs -> result DistanceMeasure;
  DtwDistance : Z -> kwargs -> result DistanceMeasure;
  ScaledEuclideanDistance : Z -> kwargs -> result DistanceMeasure;
  ScaledDtwDistance : Z -> kwargs -> result DistanceMeasure;
  (* what uninitialised C locals hold *)
  indeterminate_TSCopy : TSCopy;
  indeterminate_size_t : Z;
  indeterminate_TSDatabase : TSDatabase
}.

Fixpoint dict_get {V} (d : list (string * V)) (key : string) : option V :=
  match d with
  | [] => None
  | (k, v) :: d' => if String.eqb k key then Some v else dict_get d' key
  end.

(* ------------------------------------------------------------------ *)
(** ** The module-level functions *)

(** What [distance] returns. *)
Inductive distance_result : Type :=
| Dist (min_dist : float)
| DistIndex (min_dist : float) (min_index : Z)
| DistArray (dist : list float)
| DistIndexArray (dist : list float) (ind : list Z).

(** What [matches] returns; [None] is an absent array. *)
Inductive matches_result : Type :=
| Match (match_array : option (list Z))
| MatchDist (distance_array : option (list float)) (match_array : option (list Z))
| MatchList (match_list : list (option (list Z)))
| MatchDistList (distance_list : list (option (list float)))
                (match_list : list (option (list Z))).

Section Module.

Variable env : Env.

Definition _DISTANCE_MEASURE : list (string * (Z -> kwargs -> result DistanceMeasure)) :=
  [ ("euclidean"%string, EuclideanDistance env);
    ("dtw"%string, DtwDistance env);
    ("scaled_euclidean"%string, ScaledEuclideanDistance env);
    ("scaled_dtw"%string, ScaledDtwDistance env) ].

(** [ts_database_new] returns a struct and declares no [except] clause:
    what [check_array_fast] or the check of the rank raises is dropped, and
    the struct handed back is then indeterminate. *)
Definition ts_database_new (data : ndarray) : result TSDatabase :=
  unraisable (indeterminate_TSDatabase env)
    (let! data := check_array_fast env data in
     if (ndim data <? 2) || (3 <? ndim data)
     then Raise (ValueError (NdimOutOfRange (ndim data)))
     else
       let sd_n_samples := shape_at data 0 in
       let sd_n_timestep := shape_at data (ndim data - 1) in
       let sd_sample_stride := stride_at data 0 / itemsize in
       let sd_timestep_stride := stride_at data (ndim data - 1) / itemsize in
       if ndim data =? 3
       then OK (mkTSDatabase sd_n_samples sd_n_timestep
                  (shape_at data (ndim data - 2))
                  (flat data) sd_sample_stride sd_timestep_stride
                  (stride_at data (ndim data - 2) / itemsize))
       else OK (mkTSDatabase sd_n_samples sd_n_timestep 1
                  (flat data) sd_sample_stride sd_timestep_stride 0)).

Definition _validate_shapelet (shapelet : ndarray) : result ndarray :=
  let! s := check_array env false shapelet in
  if 1 <? ndim s then Raise (ValueError Only1dShapelets) else OK s.

Definition _validate_data (data : ndarray) : result ndarray :=
  let! x := check_array env true data in
  if ndim x =? 1 then OK (reshape_row x) else OK x.

Definition _check_sample (sample n_samples : Z) : result unit :=
  if (sample <? 0) || (n_samples <=? sample)
  then Raise (ValueError (IllegalSample sample))
  else OK tt.

Definition _check_dim (dim ndims : Z) : result unit :=
  if (dim <? 0) || (ndims <=? dim)
  then Raise (ValueError (IllegalDimension dim))
  else OK tt.

Definition _new_match_array (matches : buffer Z) (n_matches : Z)
  : result (option (list Z)) :=
  if 0 <? n_matches
  then let! match_array := mapR (read matches) (range n_matches) in
       OK (Some match_array)
  else OK None.

Definition _new_distance_array (distances : buffer float) (n_matches : Z)
  : result (option (list float)) :=
  if 0 <? n_matches
  then let! dist_array := mapR (read distances) (range n_matches) in
       OK (Some dist_array)
  else OK None.

Definition new_distance_measure (metric : py_metric) (n_timestep : Z)
  (metric_params : option kwargs) : result DistanceMeasure :=
  let metric_params := match metric_params with Some p => p | None => [] end in
  match metric with
  | MetricStr name =>
      match dict_get _DISTANCE_MEASURE name with
      | Some cls => cls n_timestep metric_params
      | None => Raise (ValueError (MetricNotSupported name))
      end
  | MetricCallable func =>
      let! n := as_size_t n_timestep in OK (Func.new n func)
  | MetricOther => Raise (ValueError UnknownMetric)
  end.

(** [sample = 0] or [np.arange(x.shape[0])] when no sample is given. *)
Definition default_sample (x : ndarray) (sample : py_sample) : py_sample :=
  match sample with
  | SampleNone =>
      if shape_at x 0 =? 1 then SampleInt 0 else SampleSeq (range (shape_at x 0))
  | _ => sample
  end.

(** Passing the object [sample] where a [size_t] is expected. *)
Definition size_t_of_object (sample : py_sample) : result Z :=
  match sample with
  | SampleInt z => as_size_t z
  | SampleSeq l => size_t_of_sequence env l
  | SampleNone => Raise TypeError
  end.

(** Entering a kernel for sample [t_index]. *)
Definition kernel_call {A} (k : kernel) (t_index : Z) (r : result A) : M A :=
  log (EvKernel k t_index) ;;; lift r.

(** [min_dist = distance_measure.ts_copy_sub_distance(&shape, &sd, arg, &min_index)]:
    returns [min_dist] and the content of [min_index] after the call. *)
Definition sub_distance_call (distance_measure : DistanceMeasure) (shape : TSCopy)
  (sd : TSDatabase) (arg : py_sample) (min_index : Z) : M (float * Z) :=
  t <- lift (size_t_of_object arg) ;;
  '(min_dist, written) <-
     kernel_call K_sub_distance t (ts_copy_sub_distance distance_measure shape sd t) ;;
  ret (min_dist, match written with Some j => j | None => min_index end).

(** [min_dist = distance_measure.ts_copy_distance(&shape, &sd, arg)] followed
    by [min_index = 0]. *)
Definition whole_distance_call (distance_measure : DistanceMeasure) (shape : TSCopy)
  (sd : TSDatabase) (arg : py_sample) : M (float * Z) :=
  t <- lift (size_t_of_object arg) ;;
  min_dist <- kernel_call K_distance t (ts_copy_distance distance_measure shape sd t) ;;
  ret (min_dist, 0).

(** The loop [for i in samples] of [distance]. *)
Fixpoint distance_loop (distance_measure : DistanceMeasure) (shape : TSCopy)
  (sd : TSDatabase) (subsequence_distance : bool) (sample : py_sample)
  (samples : list Z) (min_index : Z) (dist : list float) (ind : list Z)
  : M (list float * list Z) :=
  match samples with
  | [] => ret (dist, ind)
  | i :: rest =>
      '(min_dist, min_index) <-
         (if subsequence_distance
          then sub_distance_call distance_measure shape sd (SampleInt i) min_index
          else whole_distance_call distance_measure shape sd sample) ;;
      distance_loop distance_measure shape sd subsequence_distance sample rest
        min_index (dist ++ [min_dist]) (ind ++ [min_index])
  end.

Definition distance (shapelet data : ndarray) (dim : Z) (sample : py_sample)
  (metric : py_metric) (metric_params : option kwargs)
  (subsequence_distance return_index : bool) : M distance_result :=
  s <- lift (_validate_shapelet shapelet) ;;
  x <- lift (_validate_data data) ;;
  let sample := default_sample x sample in
  sd <- lift (ts_database_new x) ;;
  lift (_check_dim dim (n_dims sd)) ;;;
  distance_measure <- lift (new_distance_measure metric (n_timestep sd) metric_params) ;;
  if negb subsequence_distance
     && negb (support_unaligned distance_measure)
     && negb (shape_at s 0 =? n_timestep sd)
  then raise (ValueError (LengthsDiffer (shape_at s 0) (n_timestep sd)))
  else
  if negb (support_unaligned distance_measure) && (n_timestep sd <? shape_at s 0)
  then raise (ValueError (LengthTooLong (shape_at s 0) (n_timestep sd)))
  else
  c_dim <- lift (as_size_t dim) ;;
  '(_, shape) <- init_ts_copy_from_ndarray distance_measure
                   (indeterminate_TSCopy env) s c_dim ;;
  match sample with
  | SampleInt _ =>
      '(min_dist, min_index) <-
         (if subsequence_distance
          then sub_distance_call distance_measure shape sd sample
                 (indeterminate_size_t env)
          else whole_distance_call distance_measure shape sd sample) ;;
      if return_index then ret (DistIndex min_dist min_index) else ret (Dist min_dist)
  | SampleSeq l =>
      samples <- lift (check_array_int env l) ;;
      '(dist, ind) <-
         distance_loop distance_measure shape sd subsequence_distance sample
           samples (indeterminate_size_t env) [] [] ;;
      if return_index then ret (DistIndexArray dist ind) else ret (DistArray dist)
  | SampleNone => raise TypeError   (* not reached: see default_sample *)
  end.

(** The kernel call of [matches], with the two buffers it hands over. *)
Definition sub_matches_call (distance_measure : DistanceMeasure) (shape : TSCopy)
  (sd : TSDatabase) (t_index : Z) (threshold : float)
  : M (buffer Z * buffer float * Z) :=
  '(ms, ds, n_matches) <-
     kernel_call K_sub_matches t_index
       (ts_copy_sub_matches distance_measure shape sd t_index threshold) ;;
  matches <- hand_over ms ;;
  distances <- hand_over ds ;;
  ret (matches, distances, n_matches).

(** The loop [for i in samples] of [matches]; [i] is a [size_t]. *)
Fixpoint matches_loop (distance_measure : DistanceMeasure) (shape : TSCopy)
  (sd : TSDatabase) (threshold : float) (samples : list Z)
  (match_list : list (option (list Z))) (distance_list : list (option (list float)))
  : M (list (option (list Z)) * list (option (list float))) :=
  match samples with
  | [] => ret (match_list, distance_list)
  | elem :: rest =>
      i <- lift (as_size_t elem) ;;
      lift (_check_sample i (n_samples sd)) ;;;
      '(matches, distances, n_matches) <-
         sub_matches_call distance_measure shape sd i threshold ;;
      match_array <- lift (_new_match_array matches n_matches) ;;
      distance_array <- lift (_new_distance_array distances n_matches) ;;
      free (address matches) ;;;
      free (address distances) ;;;
      matches_loop distance_measure shape sd threshold rest
        (match_list ++ [match_array]) (distance_list ++ [distance_array])
  end.

Definition matches (shapelet X : ndarray) (threshold : float) (dim : Z)
  (sample : py_sample) (metric : py_metric) (metric_params : option kwargs)
  (return_distance : bool) : M matches_result :=
  s <- lift (_validate_shapelet shapelet) ;;
  x <- lift (_validate_data X) ;;
  lift (_check_dim dim (ndim x)) ;;;
  let sample := default_sample x sample in
  sd <- lift (ts_database_new x) ;;
  distance_measure <- lift (new_distance_measure metric (n_timestep sd) metric_params) ;;
  c_dim <- lift (as_size_t dim) ;;
  '(_, shape) <- init_ts_copy_from_ndarray distance_measure
                   (indeterminate_TSCopy env) s c_dim ;;
  match sample with
  | SampleInt z =>
      lift (_check_sample z (n_samples sd)) ;;;
      t <- lift (as_size_t z) ;;
      '(matches, distances, n_matches) <-
         sub_matches_call distance_measure shape sd t threshold ;;
      match_array <- lift (_new_match_array matches n_matches) ;;
      distance_array <- lift (_new_distance_array distances n_matches) ;;
      free (address distances) ;;;
      free (address matches) ;;;
      if return_distance
      then ret (MatchDist distance_array match_array)
      else ret (Match match_array)
  | SampleSeq l =>
      samples <- lift (check_array_int env l) ;;
      '(match_list, distance_list) <-
         matches_loop distance_measure shape sd threshold samples [] [] ;;
      if return_distance
      then ret (MatchDistList distance_list match_list)
      else ret (MatchList match_list)
  | SampleNone => raise TypeError   (* not reached: see default_sample *)
  end.

End Module.

(* ------------------------------------------------------------------ *)
(** ** A concrete environment *)

Module Demo.

Definition vector (values : list float) : ndarray :=
  mkArray [Z.of_nat (List.length values)] values.

(** A batch of equally long series, as a 2-D array. *)
Definition matrix (rows : list (list float)) : ndarray :=
  mkArray [Z.of_nat (List.length rows);
           Z.of_nat (List.length (hd [] rows))] (List.concat rows).

(** Modelled from the spec: the class [EuclideanDistance] of
    [_euclidean_distance], which is not among the sources.  Section 4.2:
    the raw L2 distance over the window at a given offset; the best-window
    search scans the offsets [0..n_timestep-length] and the first minimum
    wins; the matches are the offsets whose distance is strictly below the
    threshold, in ascending order.  Section 4.3: a pattern longer than the
    series is refused before any computation. *)
Module Euclidean.

Definition series (s : TSCopy) (td : TSDatabase) (t_index : Z) : result (list float) :=
  let sample_offset :=
    size_t_wrap (t_index * sample_stride td + tc_dim s * dim_stride td) in
  mapR (fun i => read_cells (td_data td)
                   (size_t_wrap (sample_offset + timestep_stride td * i)))
       (range (n_timestep td)).

Definition pattern (s : TSCopy) : result (list float) :=
  mapR (read (tc_data s)) (range (tc_length s)).

Fixpoint sum_sq (p w : list float) (acc : float) : float :=
  match p, w with
  | a :: p', b :: w' => sum_sq p' w' (acc + (a - b) * (a - b))%float
  | _, _ => acc
  end.

Definition window_distance (p t : list float) (o : Z) : float :=
  sqrt (sum_sq p (skipn (Z.to_nat o) t) 0%float).

Definition offsets (s : TSCopy) (td : TSDatabase) : result (list Z) :=
  if n_timestep td <? tc_length s
  then Raise (ValueError (LengthTooLong (tc_length s) (n_timestep td)))
  else OK (range (n_timestep td - tc_length s + 1)).

Fixpoint best (p t : list float) (os : list Z) (min_dist : float) (min_index : Z)
  : float * Z :=
  match os with
  | [] => (min_dist, min_index)
  | o :: rest =>
      let d := window_distance p t o in
      if (d <? min_dist)%float then best p t rest d o
      else best p t rest min_dist min_index
  end.

(** Modelled from the spec: the best-window distance of the Euclidean
    measure and the offset that achieves it. *)
Definition ts_copy_sub_distance (s : TSCopy) (td : TSDatabase) (t_index : Z)
  : result (float * option Z) :=
  let! os := offsets s td in
  let! p := pattern s in
  let! t := series s td t_index in
  let (d, o) := best p t os infinity 0 in
  OK (d, Some o).

(** Modelled from the spec: the offsets of the Euclidean measure whose
    distance is strictly below the threshold. *)
Definition ts_copy_sub_matches (s : TSCopy) (td : TSDatabase) (t_index : Z)
  (threshold : float) : result (list Z * list float * Z) :=
  let! os := offsets s td in
  let! p := pattern s in
  let! t := series s td t_index in
  let hits := filter (fun o => (window_distance p t o <? threshold)%float) os in
  OK (hits, map (window_distance p t) hits, Z.of_nat (List.length hits)).

(** Modelled from the spec: [EuclideanDistance(n_timestep)], a subclass
    of [DistanceMeasure] that overrides the two kernels on copies. *)
Definition new (n_timestep : Z) (_ : kwargs) : result DistanceMeasure :=
  OK (mkDistanceMeasure n_timestep
        Base.init_ts_view Base.init_ts_copy_from_ndarray
        Base.ts_view_sub_distance ts_copy_sub_distance ts_copy_sub_matches
        (Base.ts_copy_distance ts_copy_sub_distance)
        Base.support_unaligned).

End Euclidean.

Definition total (values : list float) : float :=
  fold_left PrimFloat.add values 0%float.

Definition np_mean (a : ndarray) : float :=
  (total (flat a) / double_of_Z (Z.of_nat (List.length (flat a))))%float.

Definition np_std (a : ndarray) : float :=
  let m := np_mean a in
  sqrt (total (map (fun v => (v - m) * (v - m))%float (flat a))
        / double_of_Z (Z.of_nat (List.length (flat a))))%float.

(** The environment of the examples.  The coercion of a sequence to
    [size_t] is left open; the other metric classes are bound to the
    classes of this module they derive from. *)
Definition env_with (coerce : list Z -> result Z) : Env :=
  mkEnv
    (fun allow_nd a =>
       if negb allow_nd && (2 <? ndim a) then Raise (ValueError InvalidArray)
       else match flat a with
            | [] => Raise (ValueError InvalidArray)
            | _ => OK a
            end)
    (fun l => match l with [] => Raise (ValueError InvalidArray) | _ => OK l end)
    (fun a => OK a)
    np_mean np_std
    coerce
    Euclidean.new
    (fun n _ => OK (Base.new n))
    (fun n _ => OK (Scaled.new np_mean np_std n))
    (fun n _ => OK (Scaled.new np_mean np_std n))
    (mkTSCopy 0 0 NAN NAN null_buffer 0 0)
    0
    (mkTSDatabase 0 0 0 [] 0 0 0).

(** A sequence object converts to an integer only when it holds exactly
    one. *)
Definition coerce_singleton (l : list Z) : result Z :=
  match l with
  | [z] => as_size_t z
  | _ => Raise TypeError
  end.

Definition env : Env := env_with coerce_singleton.

(** A user metric: the sum of the absolute differences. *)
Fixpoint manhattan_from (x y : list float) (acc : float) : float :=
  match x, y with
  | a :: x', b :: y' => manhattan_from x' y' (acc + abs (a - b))%float
  | _, _ => acc
  end.

Definition manhattan : callable := fun x y => OK (manhattan_from x y 0%float).

Definition always (n : nat) : bool := true.
Definition never (n : nat) : bool := false.

End Demo.

(* ------------------------------------------------------------------ *)
(** ** Running a call *)

(** The trace and the outcome of a call started on an empty trace. *)
Definition outcome {A} (oracle : nat -> bool) (c : M A) : list event * result A :=
  let (w, r) := c (init_world oracle) in (trace w, r).

Definition kernel_entered (tr : list event) : bool :=
  existsb (fun ev => match ev with EvKernel _ _ => true | _ => false end) tr.

Definition freed (p : pointer) (tr : list event) : nat :=
  List.length
    (filter (fun ev => match ev, p with
                       | EvFree (Block a), Block b => Nat.eqb a b
                       | _, _ => false
                       end) tr).

Definition entry_ok {A} (n : Z) (e : option (list A)) : Prop :=
  (n <= 0 -> e = None) /\
  (0 < n -> exists a, e = Some a /\ Z.of_nat (List.length a) = n).

(** The offset arrays of a result, one per target sample. *)
Definition match_entries (r : matches_result) : list (option (list Z)) :=
  match r with
  | Match m => [m]
  | MatchDist _ m => [m]
  | MatchList ml => ml
  | MatchDistList _ ml => ml
  end.


(** Every cell a view of [length] values refers to lies inside the data. *)
Definition slice_readable (td : TSDatabase) (index start length dim : Z) : bool :=
  let shapelet_offset :=
    size_t_wrap (index * sample_stride td + dim * dim_stride td +
                 start * timestep_stride td) in
  forallb (fun i =>
             Nat.ltb (Z.to_nat (size_t_wrap (shapelet_offset + i * timestep_stride td)))
                     (List.length (td_data td)))
          (range length).

(* ------------------------------------------------------------------ *)
(** ** More of the module *)

(** [buf[i] = v] through a C pointer. *)
Definition write_cells {A} (l : list A) (i : Z) (v : A) : result (list A) :=
  if i <? 0 then Raise Fault
  else match store_nat l (Z.to_nat i) v with
       | Some l' => OK l'
       | None => Raise Fault
       end.

(** The loop of [DistanceMeasure.ts_view_sub_distances]; [distances] is the
    out-parameter, returned as the loop leaves it. *)
Fixpoint sub_distances_loop
  (self_ts_view_sub_distance : TSView -> TSDatabase -> Z -> result float)
  (s : TSView) (td : TSDatabase) (samples : list Z) (distances : list float)
  (ps : list Z) : result (list float) :=
  match ps with
  | [] => OK distances
  | p :: rest =>
      let! t_index := read_cells samples p in
      let! d := self_ts_view_sub_distance s td t_index in
      let! distances := write_cells distances p d in
      sub_distances_loop self_ts_view_sub_distance s td samples distances rest
  end.

(** [ts_view_sub_distances(s, td, samples, distances, n_samples)], a method
    no class of the module overrides; the distance is dispatched on the
    instance. *)
Definition ts_view_sub_distances
  (self_ts_view_sub_distance : TSView -> TSDatabase -> Z -> result float)
  (s : TSView) (td : TSDatabase) (samples : list Z) (distances : list float)
  (n_samples : Z) : result (list float) :=
  sub_distances_loop self_ts_view_sub_distance s td samples distances (range n_samples).

(** What the loop of [matches] adds to the trace when it runs to its end:
    per target sample the kernel, the two buffers handed over, and their
    release. *)
Fixpoint matches_loop_trace (b : nat) (samples : list Z) : list event :=
  match samples with
  | [] => []
  | i :: rest =>
      [EvKernel K_sub_matches i; EvHandOver (Block b); EvHandOver (Block (S b));
       EvFree (Block b); EvFree (Block (S b))]
      ++ matches_loop_trace (S (S b)) rest
  end.

(** The content of the C local [min_index] after each turn of a loop whose
    kernel stored, or did not store, a best position: a turn that stores
    nothing leaves the value of the turn before. *)
Fixpoint carried_index (min_index : Z) (written : list (option Z)) : list Z :=
  match written with
  | [] => []
  | wr :: rest =>
      let j := match wr with Some k => k | None => min_index end in
      j :: carried_index j rest
  end.

(** The distances of a result of [distance], one per target sample. *)
Definition distances_of (r : distance_result) : list float :=
  match r with
  | Dist d => [d]
  | DistIndex d _ => [d]
  | DistArray dist => dist
  | DistIndexArray dist _ => dist
  end.


(** A computation that frees nothing leaves every count of frees as it
    was. *)
Definition frees_nothing {A} (c : M A) : Prop :=
  forall (w : world) (p : pointer), freed p (trace (fst (c w))) = freed p (trace w).

(* ------------------------------------------------------------------ *)
(** ** Basic facts *)

Lemma nan_is_not_a_number (x : float) : is_nan x = false -> NAN <> x.
Proof.
  intros Hx Heq. rewrite <- Heq in Hx. vm_compute in Hx. discriminate.
Qed.

Lemma range_length (n : Z) : List.length (range n) = Z.to_nat n.
Proof. unfold range. rewrite length_map, length_seq. reflexivity. Qed.

Lemma mapR_length {A B} (f : A -> result B) (l : list A) (bs : list B) :
  mapR f l = OK bs -> List.length bs = List.length l.
Proof.
  revert bs. induction l as [|a l IH]; simpl; intros bs H.
  - inversion H. reflexivity.
  - destruct (f a) as [b|e]; simpl in H; [|discriminate].
    destruct (mapR f l) as [bs'|e]; simpl in H; [|discriminate].
    inversion H. simpl. f_equal. apply IH. reflexivity.
Qed.

Lemma read_cells_in_bounds {A} (cs : list A) (i : Z) :
  0 <= i -> (Z.to_nat i < List.length cs)%nat -> exists a, read_cells cs i = OK a.
Proof.
  intros Hi Hlt. unfold read_cells.
  destruct (i <? 0) eqn:E; [apply Z.ltb_lt in E; lia|].
  destruct (nth_error cs (Z.to_nat i)) as [a|] eqn:En.
  - exists a. reflexivity.
  - apply nth_error_None in En. lia.
Qed.

Lemma size_t_wrap_nonneg (z : Z) : 0 <= size_t_wrap z.
Proof.
  unfold size_t_wrap, size_t_modulus.
  apply Z.mod_pos_bound. reflexivity.
Qed.

Lemma sum_and_squares_readable (t : TSDatabase) (off : Z) (indices : list Z) :
  forallb (fun i =>
             Nat.ltb (Z.to_nat (size_t_wrap (off + i * timestep_stride t)))
                     (List.length (td_data t))) indices = true ->
  forall ex ex2, exists sums, sum_and_squares t off indices ex ex2 = OK sums.
Proof.
  induction indices as [|i rest IH]; simpl; intros H ex ex2.
  - eexists. reflexivity.
  - apply andb_true_iff in H. destruct H as [Hi Hrest].
    apply Nat.ltb_lt in Hi.
    destruct (read_cells_in_bounds (td_data t)
                (size_t_wrap (off + i * timestep_stride t))
                (size_t_wrap_nonneg _) Hi) as [v Hv].
    rewrite Hv. simpl. apply IH. exact Hrest.
Qed.

(** [_ts_view_update_statistics] hands back the struct it was given. *)
Lemma ts_view_update_statistics_unchanged (s : TSView) (t : TSDatabase) :
  _ts_view_update_statistics s t =
  (let! _ := local_statistics s t in OK (0, s)).
Proof.
  unfold _ts_view_update_statistics, local_statistics.
  destruct (sum_and_squares _ _ _ _ _) as [[ex ex2]|e]; reflexivity.
Qed.

(* ------------------------------------------------------------------ *)
(** ** The view initialisers *)

Lemma base_init_ts_view_succeeds (td : TSDatabase) (tv : TSView) (index start length dim : Z) :
  Base.init_ts_view td tv index start length dim =
  OK (0, mkTSView index start length dim NAN NAN NULL).
Proof. reflexivity. Qed.

(** C4: on every view whose cells lie inside the data, [init_ts_view] of the
    scaled measure returns -1 (the base method documents "non-negative on
    success" and returns 0), and the view it leaves behind still carries NaN
    for the mean and for the standard deviation. *)
Theorem scaled_init_ts_view_returns_minus_one :
  forall (td : TSDatabase) (tv : TSView) (index start length dim : Z),
    slice_readable td index start length dim = true ->
    Scaled.init_ts_view td tv index start length dim =
    OK (-1, mkTSView index start length dim NAN NAN NULL).
Proof.
  intros td tv index start length dim Hread.
  unfold Scaled.init_ts_view. rewrite base_init_ts_view_succeeds. simpl bindR.
  rewrite ts_view_update_statistics_unchanged.
  unfold local_statistics. simpl tv_index. simpl tv_dim. simpl tv_start. simpl tv_length.
  unfold slice_readable in Hread.
  destruct (sum_and_squares_readable td _ _ Hread 0%float 0%float) as [[ex ex2] Hs].
  rewrite Hs. reflexivity.
Qed.

Lemma scaled_init_ts_view_returns_minus_one_witness :
  slice_readable (mkTSDatabase 1 3 1 [1; 2; 3]%float 3 1 0) 0 0 3 0 = true /\
  Scaled.init_ts_view (mkTSDatabase 1 3 1 [1; 2; 3]%float 3 1 0)
    (mkTSView 0 0 0 0 0%float 0%float NULL) 0 0 3 0 =
  OK (-1, mkTSView 0 0 3 0 NAN NAN NULL).
Proof.
  split.
  - reflexivity.
  - apply (scaled_init_ts_view_returns_minus_one
             (mkTSDatabase 1 3 1 [1; 2; 3]%float 3 1 0)
             (mkTSView 0 0 0 0 0%float 0%float NULL) 0 0 3 0).
    reflexivity.
Defined.

(** C9: for the series [1, 2, 3] the arithmetic mean is 2 and the population
    standard deviation is sqrt(14/3 - 4); [_ts_view_update_statistics]
    computes both in a local copy of the struct, and the view the scaled
    measure initialises over that series keeps NaN in both fields. *)
Theorem scaled_view_statistics_are_not_cached :
  forall td : TSDatabase,
    ts_database_new Demo.env (Demo.matrix [[1; 2; 3]%float]) = OK td ->
    local_statistics (mkTSView 0 0 3 0 NAN NAN NULL) td
      = OK (2%float, 0x1.a20bd700c2c4p-1%float) /\
    Scaled.init_ts_view td (mkTSView 0 0 0 0 NAN NAN NULL) 0 0 3 0
      = OK (-1, mkTSView 0 0 3 0 NAN NAN NULL) /\
    NAN <> 2%float /\ NAN <> 0x1.a20bd700c2c4p-1%float.
Proof.
  intros td Htd. vm_compute in Htd. inversion Htd; subst td. clear Htd.
  split; [vm_compute; reflexivity|].
  split; [vm_compute; reflexivity|].
  split; apply nan_is_not_a_number; reflexivity.
Qed.

Lemma scaled_view_statistics_are_not_cached_witness :
  ts_database_new Demo.env (Demo.matrix [[1; 2; 3]%float])
    = OK (mkTSDatabase 1 3 1 [1; 2; 3]%float 3 1 0) /\
  Scaled.init_ts_view (mkTSDatabase 1 3 1 [1; 2; 3]%float 3 1 0)
    (mkTSView 0 0 0 0 NAN NAN NULL) 0 0 3 0
    = OK (-1, mkTSView 0 0 3 0 NAN NAN NULL).
Proof.
  split.
  - reflexivity.
  - apply (scaled_view_statistics_are_not_cached
             (mkTSDatabase 1 3 1 [1; 2; 3]%float 3 1 0)).
    reflexivity.
Defined.

(** The copy a scaled measure builds from raw values stores [np.mean] and
    [np.std] of those values when the allocation succeeds. *)
Lemma scaled_copy_statistics (np_mean np_std : ndarray -> float)
  (tc : TSCopy) (arr : ndarray) (dim : Z) (w w' : world) (tc' : TSCopy) :
  Scaled.init_ts_copy_from_ndarray np_mean np_std tc arr dim w = (w', OK (0, tc')) ->
  tc_mean tc' = np_mean arr /\ tc_std tc' = np_std arr.
Proof.
  unfold Scaled.init_ts_copy_from_ndarray, bind.
  destruct (Base.init_ts_copy_from_ndarray tc arr dim w) as [w1 [[err tc1]|e]];
    [|discriminate].
  destruct (err =? -1); unfold ret; intros H; inversion H; subst.
  split; reflexivity.
Qed.

(* ------------------------------------------------------------------ *)
(** ** Unaligned support *)

(** C7, as the claim states it, fails: the callable-backed measure answers
    false. *)
Lemma func_support_unaligned_is_not_true :
  ~ (support_unaligned (Base.new 5) = false /\
     support_unaligned (Func.new 5 Demo.manhattan) = true).
Proof. intros [_ H]. discriminate H. Qed.

(** C7 (amended): [support_unaligned] returns false for the base measure and
    false as well for the callable-backed measure, whose override returns
    [False]. *)
Theorem support_unaligned_is_false :
  forall (n : Z) (func : callable),
    support_unaligned (Base.new n) = false /\
    support_unaligned (Func.new n func) = false.
Proof. intros n func. split; reflexivity. Qed.

(* ------------------------------------------------------------------ *)
(** ** The checks of the two entry points, on concrete calls *)

(** C2: [distance] on a single series of five points with [sample=7] and a
    user metric: no check of the sample index takes place, the distance
    kernel is entered for sample 7 and reads outside the data; the same in
    a batch.  [matches] on the same arguments stops at [_check_sample]
    before its kernel; in a batch it checks each index in its turn, after
    the kernel has run for the indices before it. *)
Theorem distance_does_not_check_the_sample :
  outcome Demo.always
    (distance Demo.env (Demo.vector [0; 1; 0]%float) (Demo.matrix [[0; 0; 1; 0; 0]%float])
       0 (SampleInt 7) (MetricCallable Demo.manhattan) None true false)
  = ([EvMalloc 24 (Block 0); EvKernel K_sub_distance 7], Raise Fault)
  /\
  outcome Demo.always
    (distance Demo.env (Demo.vector [0; 1; 0]%float) (Demo.matrix [[0; 0; 1; 0; 0]%float])
       0 (SampleSeq [0; 7]) (MetricCallable Demo.manhattan) None true false)
  = ([EvMalloc 24 (Block 0); EvKernel K_sub_distance 0; EvKernel K_sub_distance 7],
     Raise Fault)
  /\
  outcome Demo.always
    (matches Demo.env (Demo.vector [0; 1; 0]%float) (Demo.matrix [[0; 0; 1; 0; 0]%float])
       1%float 0 (SampleInt 7) (MetricCallable Demo.manhattan) None false)
  = ([EvMalloc 24 (Block 0)], Raise (ValueError (IllegalSample 7)))
  /\
  outcome Demo.always
    (matches Demo.env (Demo.vector [0; 1; 0]%float) (Demo.matrix [[0; 0; 1; 0; 0]%float])
       1%float 0 (SampleSeq [0; 7]) (MetricStr "euclidean") None false)
  = ([EvMalloc 24 (Block 0); EvKernel K_sub_matches 0;
      EvHandOver (Block 1); EvHandOver (Block 2); EvFree (Block 1); EvFree (Block 2)],
     Raise (ValueError (IllegalSample 7))).
Proof. repeat split; vm_compute; reflexivity. Qed.

(** C3: on two-dimensional data (one dimension per series) [matches]
    accepts [dim=1], because it compares [dim] with the rank of the array,
    and goes on to its kernel (with the Euclidean measure and with a user
    metric alike); [distance] refuses the same call.  On
    three-dimensional data with five dimensions [matches] refuses [dim=3],
    which [distance] accepts. *)
Theorem matches_checks_dim_against_the_rank :
  outcome Demo.always
    (matches Demo.env (Demo.vector [1; 1]%float) (Demo.matrix [[1; 1; 0]%float])
       1%float 1 (SampleInt 0) (MetricStr "euclidean") None false)
  = ([EvMalloc 16 (Block 0); EvKernel K_sub_matches 0;
      EvHandOver (Block 1); EvHandOver (Block 2); EvFree (Block 2); EvFree (Block 1)],
     OK (Match (Some [0])))
  /\
  outcome Demo.always
    (matches Demo.env (Demo.vector [1; 1]%float) (Demo.matrix [[1; 1; 0]%float])
       1%float 1 (SampleInt 0) (MetricCallable Demo.manhattan) None false)
  = ([EvMalloc 16 (Block 0); EvKernel K_sub_matches 0], Raise NotImplementedError)
  /\
  outcome Demo.always
    (distance Demo.env (Demo.vector [1; 1]%float) (Demo.matrix [[1; 1; 0]%float])
       1 (SampleInt 0) (MetricStr "euclidean") None true false)
  = ([], Raise (ValueError (IllegalDimension 1)))
  /\
  outcome Demo.always
    (matches Demo.env (Demo.vector [1; 1]%float)
       (mkArray [1; 5; 2] [0; 0; 0; 0; 0; 0; 1; 1; 0; 0]%float)
       1%float 3 (SampleInt 0) (MetricStr "euclidean") None false)
  = ([], Raise (ValueError (IllegalDimension 3)))
  /\
  outcome Demo.always
    (distance Demo.env (Demo.vector [1; 1]%float)
       (mkArray [1; 5; 2] [0; 0; 0; 0; 0; 0; 1; 1; 0; 0]%float)
       3 (SampleInt 0) (MetricStr "euclidean") None true false)
  = ([EvMalloc 16 (Block 0); EvKernel K_sub_distance 0], OK (Dist 0%float)).
Proof. repeat split; vm_compute; reflexivity. Qed.

(** C5: when the allocation of the copy's buffer fails, [distance] and
    [matches] drop the return code of [init_ts_copy_from_ndarray], raise no
    allocation error and enter their kernel with a copy whose data pointer
    is [NULL]. *)
Theorem failed_allocation_is_not_reported :
  outcome Demo.never
    (Base.init_ts_copy_from_ndarray (indeterminate_TSCopy Demo.env)
       (Demo.vector [0; 1; 0]%float) 0)
  = ([EvMalloc 24 NULL], OK (-1, mkTSCopy 3 0 NAN NAN (mkBuffer NULL []) 0 0))
  /\
  outcome Demo.never
    (distance Demo.env (Demo.vector [0; 1; 0]%float) (Demo.matrix [[0; 0; 1; 0; 0]%float])
       0 (SampleInt 0) (MetricCallable Demo.manhattan) None true false)
  = ([EvMalloc 24 NULL; EvKernel K_sub_distance 0], Raise Fault)
  /\
  outcome Demo.never
    (distance Demo.env (Demo.vector [0; 1; 0]%float) (Demo.matrix [[0; 0; 1; 0; 0]%float])
       0 (SampleInt 0) (MetricStr "euclidean") None true false)
  = ([EvMalloc 24 NULL; EvKernel K_sub_distance 0], Raise Fault)
  /\
  outcome Demo.never
    (matches Demo.env (Demo.vector [0; 1; 0]%float) (Demo.matrix [[0; 0; 1; 0; 0]%float])
       1%float 0 (SampleInt 0) (MetricCallable Demo.manhattan) None false)
  = ([EvMalloc 24 NULL; EvKernel K_sub_matches 0], Raise NotImplementedError).
Proof. repeat split; vm_compute; reflexivity. Qed.

(** C6: a call of [distance] and a call of [matches] that both succeed: the
    buffer of the copy is block 0, and when the call returns it has not
    been freed; the only blocks [matches] frees are the two its kernel
    handed over. *)
Theorem pattern_buffer_is_never_freed :
  outcome Demo.always
    (distance Demo.env (Demo.vector [0; 1; 0]%float) (Demo.matrix [[0; 0; 1; 0; 0]%float])
       0 SampleNone (MetricStr "euclidean") None true true)
  = ([EvMalloc 24 (Block 0); EvKernel K_sub_distance 0], OK (DistIndex 0%float 1))
  /\
  outcome Demo.always
    (distance Demo.env (Demo.vector [0; 1; 0]%float) (Demo.matrix [[0; 0; 1; 0; 0]%float])
       0 SampleNone (MetricCallable Demo.manhattan) None true false)
  = ([EvMalloc 24 (Block 0); EvKernel K_sub_distance 0], OK (Dist 2%float))
  /\
  outcome Demo.always
    (matches Demo.env (Demo.vector [0; 1; 0]%float) (Demo.matrix [[0; 0; 1; 0; 0]%float])
       1%float 0 SampleNone (MetricStr "euclidean") None false)
  = ([EvMalloc 24 (Block 0); EvKernel K_sub_matches 0;
      EvHandOver (Block 1); EvHandOver (Block 2); EvFree (Block 2); EvFree (Block 1)],
     OK (Match (Some [1])))
  /\
  freed (Block 0)
    (fst (outcome Demo.always
            (matches Demo.env (Demo.vector [0; 1; 0]%float)
               (Demo.matrix [[0; 0; 1; 0; 0]%float])
               1%float 0 SampleNone (MetricStr "euclidean") None false))) = 0%nat.
Proof. repeat split; vm_compute; reflexivity. Qed.

(** C8: a pattern of three values against series of two, with a measure
    that has no unaligned support: [distance] refuses the call before any
    kernel is entered, [matches] compares no lengths and enters its
    kernel. *)
Theorem matches_does_not_compare_lengths :
  support_unaligned (Func.new 2 Demo.manhattan) = false
  /\
  outcome Demo.always
    (distance Demo.env (Demo.vector [1; 2; 3]%float) (Demo.matrix [[0; 0]%float])
       0 (SampleInt 0) (MetricCallable Demo.manhattan) None true false)
  = ([], Raise (ValueError (LengthTooLong 3 2)))
  /\
  outcome Demo.always
    (matches Demo.env (Demo.vector [1; 2; 3]%float) (Demo.matrix [[0; 0]%float])
       1%float 0 (SampleInt 0) (MetricCallable Demo.manhattan) None false)
  = ([EvMalloc 24 (Block 0); EvKernel K_sub_matches 0], Raise NotImplementedError).
Proof. repeat split; vm_compute; reflexivity. Qed.

(* ------------------------------------------------------------------ *)
(** ** Reasoning about calls that return *)

Lemma bind_OK {A B} (c : M A) (k : A -> M B) (w w' : world) (b : B) :
  bind c k w = (w', OK b) ->
  exists w1 a, c w = (w1, OK a) /\ k a w1 = (w', OK b).
Proof.
  unfold bind. destruct (c w) as [w1 [a|e]]; intros H.
  - exists w1, a. split; [reflexivity | exact H].
  - discriminate H.
Qed.

Lemma lift_OK {A} (r : result A) (w w' : world) (a : A) :
  lift r w = (w', OK a) -> r = OK a /\ w' = w.
Proof. unfold lift. intros H. inversion H. split; reflexivity. Qed.

Lemma ret_OK {A} (a b : A) (w w' : world) :
  ret a w = (w', OK b) -> a = b /\ w' = w.
Proof. unfold ret. intros H. inversion H. split; reflexivity. Qed.

Lemma kernel_call_OK {A} (k : kernel) (t : Z) (r : result A) (w w' : world) (a : A) :
  kernel_call k t r w = (w', OK a) -> r = OK a.
Proof.
  unfold kernel_call. intros H.
  apply bind_OK in H. destruct H as (w1 & u & _ & H).
  apply lift_OK in H. tauto.
Qed.

(** Splits a hypothesis [bind c k w = (w', OK b)] into its two steps. *)
Tactic Notation "step" hyp(H) "as" simple_intropattern(a) ident(Ha) :=
  let w1 := fresh "w" in
  apply bind_OK in H; destruct H as (w1 & a & Ha & H).

(** The same for a pure first step, which leaves the world as it is. *)
Tactic Notation "pure_step" hyp(H) "as" simple_intropattern(a) ident(Ha) :=
  let w1 := fresh "w" in
  let Hw := fresh "Hw" in
  apply bind_OK in H; destruct H as (w1 & a & Ha & H);
  apply lift_OK in Ha; destruct Ha as [Ha Hw]; subst w1.

(** One whole-series computation of [distance] depends on the object it is
    given and on nothing else. *)
Lemma whole_distance_call_OK (env : Env) (dm : DistanceMeasure) (shape : TSCopy)
  (sd : TSDatabase) (arg : py_sample) (w w' : world) (d : float) (j : Z) :
  whole_distance_call env dm shape sd arg w = (w', OK (d, j)) ->
  j = 0 /\
  exists t, size_t_of_object env arg = OK t /\ ts_copy_distance dm shape sd t = OK d.
Proof.
  unfold whole_distance_call. intros H.
  pure_step H as t Ht.
  step H as min_dist Hd. apply kernel_call_OK in Hd.
  apply ret_OK in H. destruct H as [H _]. inversion H; subst.
  split; [reflexivity|]. exists t. split; assumption.
Qed.

(** In whole-series mode every turn of the loop of [distance] passes the
    object [sample], so all the entries it appends are one and the same
    distance. *)
Lemma distance_loop_whole_series (env : Env) (dm : DistanceMeasure) (shape : TSCopy)
  (sd : TSDatabase) (sample : py_sample) (samples : list Z) :
  forall (min_index : Z) (dist : list float) (ind : list Z) (w w' : world)
         (dist' : list float) (ind' : list Z),
    distance_loop env dm shape sd false sample samples min_index dist ind w
      = (w', OK (dist', ind')) ->
    ind' = ind ++ repeat 0 (List.length samples) /\
    ((samples = [] /\ dist' = dist) \/
     exists t d, size_t_of_object env sample = OK t /\
                 ts_copy_distance dm shape sd t = OK d /\
                 dist' = dist ++ repeat d (List.length samples)).
Proof.
  induction samples as [|i rest IH]; intros min_index dist ind w w' dist' ind' H.
  - simpl in H. apply ret_OK in H. destruct H as [H _]. inversion H; subst.
    simpl. rewrite !app_nil_r. split; [reflexivity | left; split; reflexivity].
  - cbn [distance_loop] in H. step H as [d j] Hone.
    apply whole_distance_call_OK in Hone.
    destruct Hone as [Hj (t & Ht & Hd)]. subst j.
    apply IH in H. destruct H as [Hind Hdist].
    split.
    + rewrite Hind. rewrite <- app_assoc. reflexivity.
    + right. exists t, d. split; [exact Ht|]. split; [exact Hd|].
      destruct Hdist as [[Hnil Hdist] | (t' & d' & Ht' & Hd' & Hdist)].
      * subst rest. rewrite Hdist. reflexivity.
      * rewrite Ht in Ht'. inversion Ht'; subst t'.
        rewrite Hd in Hd'. inversion Hd'; subst d'.
        rewrite Hdist. rewrite <- app_assoc. reflexivity.
Qed.

(** A batch call of [distance] in whole-series mode returns the same
    distance in every entry. *)
Lemma distance_batch_whole_series (env : Env) (shapelet data : ndarray) (dim : Z)
  (l : list Z) (metric : py_metric) (params : option kwargs) (return_index : bool)
  (w w' : world) (r : distance_result) :
  distance env shapelet data dim (SampleSeq l) metric params false return_index w
    = (w', OK r) ->
  exists (d : float) (n : nat),
    r = if return_index
        then DistIndexArray (repeat d n) (repeat 0 n)
        else DistArray (repeat d n).
Proof.
  unfold distance. intros H.
  pure_step H as s Hs. pure_step H as x Hx. pure_step H as sd Hsd.
  pure_step H as u Hdim. pure_step H as dm Hdm.
  simpl default_sample in H.
  match type of H with
  | (if ?c then _ else _) _ = _ => destruct c; [discriminate H|]
  end.
  match type of H with
  | (if ?c then _ else _) _ = _ => destruct c; [discriminate H|]
  end.
  pure_step H as c_dim Hc. step H as [rc shape] Hinit.
  pure_step H as samples Hsamples. step H as [dist ind] Hloop.
  apply distance_loop_whole_series in Hloop.
  destruct Hloop as [Hind Hdist]. simpl in Hind, Hdist.
  assert (Hrep : exists d, dist = repeat d (List.length samples)).
  { destruct Hdist as [[Hnil Hdist] | (t & d & _ & _ & Hdist)].
    - exists 0%float. subst. reflexivity.
    - exists d. exact Hdist. }
  destruct Hrep as [d Hrep]. exists d, (List.length samples).
  destruct return_index; apply ret_OK in H; destruct H as [H _];
    subst r ind dist; reflexivity.
Qed.

Lemma zero_is_not_seven : 0%float <> 7%float.
Proof.
  intros H. apply (f_equal (fun x => PrimFloat.eqb x 0%float)) in H.
  vm_compute in H. discriminate H.
Qed.

(** C1: two series, [0, 0] and [3, 4], the pattern [0, 0] and the sum of
    absolute differences as metric.  Against sample 0 the whole-series
    distance is 0 and against sample 1 it is 7, yet the batch call with
    [sample=[0, 1]] never returns [0, 7], however the sequence object is
    coerced to an index: the loop passes [sample] where the claim has the
    i-th index. *)
Theorem distance_batch_whole_series_ignores_the_iteration_index :
  forall coerce : list Z -> result Z,
    let call sample :=
      snd (outcome Demo.always
             (distance (Demo.env_with coerce) (Demo.vector [0; 0]%float)
                (Demo.matrix [[0; 0]; [3; 4]]%float)
                0 sample (MetricCallable Demo.manhattan) None false false)) in
    call (SampleInt 0) = OK (Dist 0%float) /\
    call (SampleInt 1) = OK (Dist 7%float) /\
    call (SampleSeq [0; 1]) <> OK (DistArray [0; 7]%float).
Proof.
  intros coerce call. subst call. cbv beta.
  split; [vm_compute; reflexivity|].
  split; [vm_compute; reflexivity|].
  unfold outcome.
  destruct (distance _ _ _ _ _ _ _ _ _ _) as [w' r] eqn:E.
  simpl. intros Hr. subst r.
  apply distance_batch_whole_series in E.
  destruct E as (d & n & E). inversion E as [Hrep].
  destruct n as [|[|[|n]]]; simpl in Hrep; try discriminate Hrep.
  inversion Hrep as [[H0 H7]]. apply zero_is_not_seven.
  symmetry. exact H7.
Qed.

(** The same batch call under two coercions: an object that converts only
    when it holds a single integer, and one that converts to its first
    element; and the batch call in subsequence mode, which does pass the
    i-th index. *)
Lemma distance_batch_examples :
  outcome Demo.always
    (distance Demo.env (Demo.vector [0; 0]%float) (Demo.matrix [[0; 0]; [3; 4]]%float)
       0 (SampleSeq [0; 1]) (MetricCallable Demo.manhattan) None false false)
  = ([EvMalloc 16 (Block 0)], Raise TypeError)
  /\
  outcome Demo.always
    (distance (Demo.env_with (fun l => OK (hd 0 l)))
       (Demo.vector [0; 0]%float) (Demo.matrix [[0; 0]; [3; 4]]%float)
       0 (SampleSeq [1; 0]) (MetricCallable Demo.manhattan) None false false)
  = ([EvMalloc 16 (Block 0); EvKernel K_distance 1; EvKernel K_distance 1],
     OK (DistArray [7; 7]%float))
  /\
  outcome Demo.always
    (distance Demo.env (Demo.vector [0; 0]%float) (Demo.matrix [[0; 0]; [3; 4]]%float)
       0 (SampleSeq [0; 1]) (MetricCallable Demo.manhattan) None true false)
  = ([EvMalloc 16 (Block 0); EvKernel K_sub_distance 0; EvKernel K_sub_distance 1],
     OK (DistArray [0; 7]%float)).
Proof. repeat split; vm_compute; reflexivity. Qed.

(* ------------------------------------------------------------------ *)
(** ** The arrays [matches] returns *)


Lemma as_size_t_OK (z t : Z) : as_size_t z = OK t -> t = z.
Proof.
  unfold as_size_t. destruct (z <? 0); [discriminate|].
  destruct (size_t_modulus <=? z); [discriminate|].
  intros H. inversion H. reflexivity.
Qed.

Lemma entry_ok_of_reads {A} (b : buffer A) (n : Z) (e : option (list A)) :
  (if 0 <? n
   then let! arr := mapR (read b) (range n) in OK (Some arr)
   else OK None) = OK e ->
  entry_ok n e.
Proof.
  destruct (0 <? n) eqn:E; intros H.
  - apply Z.ltb_lt in E.
    destruct (mapR (read b) (range n)) as [arr|err] eqn:Hm; simpl in H; [|discriminate H].
    inversion H; subst e. split; [lia|]. intros _. exists arr. split; [reflexivity|].
    apply mapR_length in Hm. rewrite Hm, range_length. apply Z2Nat.id. lia.
  - apply Z.ltb_ge in E. inversion H; subst e.
    split; [reflexivity | lia].
Qed.

Lemma new_match_array_entry (matches : buffer Z) (n : Z) (e : option (list Z)) :
  _new_match_array matches n = OK e -> entry_ok n e.
Proof. apply entry_ok_of_reads. Qed.

Lemma new_distance_array_entry (distances : buffer float) (n : Z) (e : option (list float)) :
  _new_distance_array distances n = OK e -> entry_ok n e.
Proof. apply entry_ok_of_reads. Qed.

Lemma sub_matches_call_OK (dm : DistanceMeasure) (shape : TSCopy) (sd : TSDatabase)
  (t : Z) (threshold : float) (w w' : world) (m : buffer Z) (d : buffer float) (n : Z) :
  sub_matches_call dm shape sd t threshold w = (w', OK (m, d, n)) ->
  exists mc dc, ts_copy_sub_matches dm shape sd t threshold = OK (mc, dc, n).
Proof.
  unfold sub_matches_call. intros H.
  step H as [[mc dc] n0] Hk. apply kernel_call_OK in Hk.
  step H as m0 Hm. step H as d0 Hd. apply ret_OK in H. destruct H as [H _].
  inversion H; subst. exists mc, dc. exact Hk.
Qed.

(** The entries one target sample contributes. *)
Lemma matches_step_entries (dm : DistanceMeasure) (shape : TSCopy) (sd : TSDatabase)
  (t : Z) (threshold : float) (w w1 : world)
  (m : buffer Z) (d : buffer float) (n : Z)
  (match_array : option (list Z)) (distance_array : option (list float)) :
  sub_matches_call dm shape sd t threshold w = (w1, OK (m, d, n)) ->
  _new_match_array m n = OK match_array ->
  _new_distance_array d n = OK distance_array ->
  (exists mc dc, ts_copy_sub_matches dm shape sd t threshold = OK (mc, dc, n)) /\
  entry_ok n match_array /\ entry_ok n distance_array.
Proof.
  intros Hcall Hm Hd.
  apply sub_matches_call_OK in Hcall.
  apply new_match_array_entry in Hm.
  apply new_distance_array_entry in Hd.
  split; [exact Hcall|]. split; assumption.
Qed.

Lemma matches_loop_entries (dm : DistanceMeasure) (shape : TSCopy) (sd : TSDatabase)
  (threshold : float) (samples : list Z) :
  forall (match_list : list (option (list Z)))
         (distance_list : list (option (list float)))
         (w w' : world) ml dl,
    matches_loop dm shape sd threshold samples match_list distance_list w
      = (w', OK (ml, dl)) ->
    exists counts ms ds,
      ml = match_list ++ ms /\ dl = distance_list ++ ds /\
      Forall2 (fun i n => exists mc dc,
                 ts_copy_sub_matches dm shape sd i threshold = OK (mc, dc, n))
              samples counts /\
      Forall2 entry_ok counts ms /\ Forall2 entry_ok counts ds.
Proof.
  induction samples as [|elem rest IH]; intros match_list distance_list w w' ml dl H.
  - cbn [matches_loop] in H. apply ret_OK in H. destruct H as [H _].
    inversion H; subst. exists [], [], []. rewrite !app_nil_r.
    repeat split; constructor.
  - cbn [matches_loop] in H.
    pure_step H as i Hi. apply as_size_t_OK in Hi. subst i.
    pure_step H as u Hcheck.
    step H as [[m d] n] Hcall.
    pure_step H as match_array Hma. pure_step H as distance_array Hda.
    destruct (matches_step_entries _ _ _ _ _ _ _ _ _ _ _ _ Hcall Hma Hda)
      as (Hk & Hm & Hd).
    step H as u1 Hf1. step H as u2 Hf2.
    apply IH in H.
    destruct H as (counts & ms & ds & Hml & Hdl & Hks & Hms & Hds).
    exists (n :: counts), (match_array :: ms), (distance_array :: ds).
    rewrite Hml, Hdl, <- !app_assoc. simpl.
    repeat split; try constructor; assumption.
Qed.

(* ------------------------------------------------------------------ *)
(** ** What the checks of [distance] do, on every call *)


Lemma check_sample_spec (sample n : Z) :
  _check_sample sample n = OK tt <-> 0 <= sample < n.
Proof.
  unfold _check_sample.
  destruct (sample <? 0) eqn:E1; destruct (n <=? sample) eqn:E2; simpl;
    try apply Z.ltb_lt in E1; try apply Z.ltb_ge in E1;
    try apply Z.leb_le in E2; try apply Z.leb_gt in E2;
    split; intros H; try discriminate H; try reflexivity; lia.
Qed.



(** [matches] checks a single sample index before its kernel. *)
Lemma matches_checks_single_sample (env : Env) (shapelet X : ndarray)
  (threshold : float) (dim z : Z) (metric : py_metric) (params : option kwargs)
  (return_distance : bool) (w w' : world) (r : matches_result) :
  matches env shapelet X threshold dim (SampleInt z) metric params return_distance w
    = (w', OK r) ->
  exists x sd, _validate_data env X = OK x /\ ts_database_new env x = OK sd /\
               0 <= z < n_samples sd.
Proof.
  unfold matches. intros H.
  pure_step H as s Hs. pure_step H as x Hx. pure_step H as u Hdim.
  pure_step H as sd Hsd. pure_step H as dm Hdm.
  pure_step H as c_dim Hc. step H as [rc shape] Hinit.
  simpl default_sample in H.
  pure_step H as u0 Hcheck. destruct u0.
  exists x, sd. split; [exact Hx|]. split; [exact Hsd|].
  apply check_sample_spec. exact Hcheck.
Qed.


(* ------------------------------------------------------------------ *)
(** ** Freeing *)

Lemma freed_app (p : pointer) (tr tr' : list event) :
  freed p (tr ++ tr') = (freed p tr + freed p tr')%nat.
Proof. unfold freed. rewrite filter_app, length_app. reflexivity. Qed.

Lemma frees_nothing_ret {A} (a : A) : frees_nothing (ret a).
Proof. intros w p. reflexivity. Qed.

Lemma frees_nothing_raise {A} (e : exn) : frees_nothing (@raise A e).
Proof. intros w p. reflexivity. Qed.

Lemma frees_nothing_lift {A} (r : result A) : frees_nothing (lift r).
Proof. intros w p. reflexivity. Qed.

Lemma frees_nothing_malloc (bytes : Z) : frees_nothing (malloc bytes).
Proof.
  intros w p. unfold malloc. simpl. rewrite freed_app. simpl.
  destruct (malloc_succeeds w (brk w)); unfold freed; simpl; lia.
Qed.

Lemma frees_nothing_bind {A B} (c : M A) (k : A -> M B) :
  frees_nothing c -> (forall a, frees_nothing (k a)) -> frees_nothing (bind c k).
Proof.
  intros Hc Hk w p. unfold bind. specialize (Hc w p).
  destruct (c w) as [w1 [a|e]]; simpl in Hc.
  - rewrite (Hk a w1 p). exact Hc.
  - exact Hc.
Qed.

(** After a pure step only the values it can return matter. *)
Lemma frees_nothing_pure_bind {A B} (r : result A) (k : A -> M B) :
  (forall a, r = OK a -> frees_nothing (k a)) -> frees_nothing (bind (lift r) k).
Proof.
  intros Hk w p. unfold bind, lift. destruct r as [a|e].
  - apply (Hk a eq_refl).
  - reflexivity.
Qed.

Lemma frees_nothing_kernel_call {A} (k : kernel) (t : Z) (r : result A) :
  frees_nothing (kernel_call k t r).
Proof.
  unfold kernel_call. apply frees_nothing_bind.
  - intros w p. unfold log. simpl. rewrite freed_app. unfold freed at 2. simpl. lia.
  - intros _. apply frees_nothing_lift.
Qed.

Lemma frees_nothing_base_init_ts_copy (tc : TSCopy) (arr : ndarray) (dim : Z) :
  frees_nothing (Base.init_ts_copy_from_ndarray tc arr dim).
Proof.
  unfold Base.init_ts_copy_from_ndarray. apply frees_nothing_bind.
  - apply frees_nothing_malloc.
  - intros [|id].
    + apply frees_nothing_ret.
    + apply frees_nothing_pure_bind. intros values _. apply frees_nothing_ret.
Qed.

Lemma frees_nothing_sub_distance_call (env : Env) (dm : DistanceMeasure)
  (shape : TSCopy) (sd : TSDatabase) (arg : py_sample) (min_index : Z) :
  frees_nothing (sub_distance_call env dm shape sd arg min_index).
Proof.
  unfold sub_distance_call.
  apply frees_nothing_pure_bind. intros t _. apply frees_nothing_bind.
  - apply frees_nothing_kernel_call.
  - intros [d written]. apply frees_nothing_ret.
Qed.

Lemma frees_nothing_whole_distance_call (env : Env) (dm : DistanceMeasure)
  (shape : TSCopy) (sd : TSDatabase) (arg : py_sample) :
  frees_nothing (whole_distance_call env dm shape sd arg).
Proof.
  unfold whole_distance_call.
  apply frees_nothing_pure_bind. intros t _. apply frees_nothing_bind.
  - apply frees_nothing_kernel_call.
  - intros d. apply frees_nothing_ret.
Qed.

Lemma frees_nothing_distance_call (env : Env) (dm : DistanceMeasure)
  (shape : TSCopy) (sd : TSDatabase) (sub : bool) (a b : py_sample) (min_index : Z) :
  frees_nothing (if sub
                 then sub_distance_call env dm shape sd a min_index
                 else whole_distance_call env dm shape sd b).
Proof.
  destruct sub;
    [apply frees_nothing_sub_distance_call | apply frees_nothing_whole_distance_call].
Qed.

Lemma frees_nothing_distance_loop (env : Env) (dm : DistanceMeasure) (shape : TSCopy)
  (sd : TSDatabase) (sub : bool) (sample : py_sample) (samples : list Z) :
  forall (min_index : Z) (dist : list float) (ind : list Z),
    frees_nothing (distance_loop env dm shape sd sub sample samples min_index dist ind).
Proof.
  induction samples as [|i rest IH]; intros min_index dist ind; cbn [distance_loop].
  - apply frees_nothing_ret.
  - apply frees_nothing_bind.
    + apply frees_nothing_distance_call.
    + intros [d j]. apply IH.
Qed.

(** Whatever its arguments, a call of [distance] with a user metric frees
    no block at all: the buffer it allocated for the copy of the pattern is
    still allocated when it returns or raises. *)
Lemma distance_frees_nothing (env : Env) (shapelet data : ndarray) (dim : Z)
  (sample : py_sample) (func : callable) (params : option kwargs)
  (subsequence_distance return_index : bool) :
  frees_nothing
    (distance env shapelet data dim sample (MetricCallable func) params
       subsequence_distance return_index).
Proof.
  unfold distance.
  apply frees_nothing_pure_bind. intros s _.
  apply frees_nothing_pure_bind. intros x _.
  apply frees_nothing_pure_bind. intros sd _.
  apply frees_nothing_pure_bind. intros u _.
  apply frees_nothing_pure_bind. intros dm Hdm.
  simpl in Hdm. destruct (as_size_t (n_timestep sd)) as [n|e]; simpl in Hdm;
    [|discriminate Hdm].
  inversion Hdm; subst dm. clear Hdm.
  match goal with
  | |- frees_nothing (if ?c then _ else _) => destruct c; [apply frees_nothing_raise|]
  end.
  match goal with
  | |- frees_nothing (if ?c then _ else _) => destruct c; [apply frees_nothing_raise|]
  end.
  apply frees_nothing_pure_bind. intros c_dim _.
  apply frees_nothing_bind.
  - apply frees_nothing_base_init_ts_copy.
  - intros [rc shape]. destruct (default_sample x sample) as [|z|l].
    + apply frees_nothing_raise.
    + apply frees_nothing_bind.
      * apply frees_nothing_distance_call.
      * intros [d j]. destruct return_index; apply frees_nothing_ret.
    + apply frees_nothing_pure_bind. intros samples _.
      apply frees_nothing_bind.
      * apply frees_nothing_distance_loop.
      * intros [dist ind]. destruct return_index; apply frees_nothing_ret.
Qed.

(** X28: on every call of [distance] with a user metric, whatever the
    arguments, the allocator and the outcome, no block is freed. *)
Lemma distance_never_frees (env : Env) (shapelet data : ndarray) (dim : Z)
  (sample : py_sample) (func : callable) (params : option kwargs)
  (subsequence_distance return_index : bool) (oracle : nat -> bool) (p : pointer) :
  freed p (fst (outcome oracle
                  (distance env shapelet data dim sample (MetricCallable func) params
                     subsequence_distance return_index))) = 0%nat.
Proof.
  unfold outcome.
  pose proof (distance_frees_nothing env shapelet data dim sample func params
                subsequence_distance return_index (init_world oracle) p) as H.
  destruct (distance _ _ _ _ _ _ _ _ _ _) as [w r]. simpl in *. exact H.
Qed.

(* ------------------------------------------------------------------ *)
(** ** Lists, reads and stores *)

Lemma mapR_Forall2 {A B} (f : A -> result B) (l : list A) (bs : list B) :
  mapR f l = OK bs <-> Forall2 (fun a b => f a = OK b) l bs.
Proof.
  revert bs. induction l as [|a l IH]; intros bs; simpl.
  - split; intros H.
    + inversion H. constructor.
    + inversion H. reflexivity.
  - split; intros H.
    + destruct (f a) as [b|e] eqn:Ea; simpl in H; [|discriminate H].
      destruct (mapR f l) as [bs'|e] eqn:El; simpl in H; [|discriminate H].
      inversion H; subst. constructor; [exact Ea|]. apply IH. reflexivity.
    + inversion H as [|a0 b l0 bs' Hab Hrest]; subst.
      rewrite Hab. simpl. apply IH in Hrest. rewrite Hrest. reflexivity.
Qed.

Lemma range_nth_error (n : Z) (k : nat) :
  (k < Z.to_nat n)%nat -> nth_error (range n) k = Some (Z.of_nat k).
Proof.
  intros Hk. unfold range. rewrite nth_error_map.
  rewrite (nth_error_nth' _ 0%nat) by (rewrite length_seq; exact Hk).
  rewrite seq_nth by exact Hk. reflexivity.
Qed.

Lemma read_cells_nth {A} (cs : list A) (k : nat) :
  read_cells cs (Z.of_nat k) =
  match nth_error cs k with Some a => OK a | None => Raise Fault end.
Proof.
  unfold read_cells.
  destruct (Z.of_nat k <? 0) eqn:E; [apply Z.ltb_lt in E; lia|].
  rewrite Nat2Z.id. reflexivity.
Qed.

(** Reading every cell of a list in turn gives the list back. *)
Lemma mapR_getitem_all {A} (l : list A) :
  mapR (getitem l) (range (Z.of_nat (List.length l))) = OK l.
Proof.
  apply mapR_Forall2. unfold range. rewrite Nat2Z.id.
  assert (H : forall m k, (k + m = List.length l)%nat ->
            Forall2 (fun i b => getitem l i = OK b)
                    (map Z.of_nat (seq k m)) (skipn k l)).
  { induction m as [|m IH]; intros k Hk.
    - simpl. rewrite skipn_all2 by lia. constructor.
    - simpl. destruct (skipn k l) as [|a rest] eqn:Es.
      + apply (f_equal (@List.length A)) in Es. rewrite length_skipn in Es.
        simpl in Es. lia.
      + assert (Hn : nth_error l k = Some a).
        { rewrite <- (firstn_skipn k l) at 1. rewrite Es.
          rewrite nth_error_app2 by (rewrite length_firstn; lia).
          rewrite length_firstn. replace (k - Nat.min k (List.length l))%nat with 0%nat by lia.
          reflexivity. }
        constructor.
        * unfold getitem. rewrite Nat2Z.id, Hn. reflexivity.
        * assert (Er : rest = skipn (S k) l).
          { replace (S k) with (1 + k)%nat by lia. rewrite <- skipn_skipn, Es.
            reflexivity. }
          rewrite Er. apply IH. lia. }
  apply (H (List.length l) 0%nat). lia.
Qed.



Lemma skipn_nth_cons {A} (l : list A) (k : nat) (a : A) :
  nth_error l k = Some a -> skipn k l = a :: skipn (S k) l.
Proof.
  revert k. induction l as [|x l IH]; intros k Hk.
  - destruct k; discriminate Hk.
  - destruct k as [|k]; simpl in *.
    + inversion Hk. reflexivity.
    + apply IH. exact Hk.
Qed.

(* ------------------------------------------------------------------ *)
(** ** The database descriptor *)

Lemma div_itemsize (z : Z) : itemsize * z / itemsize = z.
Proof.
  unfold itemsize, sizeof_double. rewrite Z.mul_comm. apply Z.div_mul. discriminate.
Qed.

(** The descriptor [ts_database_new] computes for two and for three axes. *)
Lemma ts_database_new_descriptor_aux :
  forall (env : Env) (data a : ndarray),
    check_array_fast env data = OK a ->
    (forall n t, shape a = [n; t] ->
       ts_database_new env data = OK (mkTSDatabase n t 1 (flat a) t 1 0)) /\
    (forall n d t, shape a = [n; d; t] ->
       ts_database_new env data = OK (mkTSDatabase n t d (flat a) (d * t) 1 t)).
Proof.
  intros env data a Ha. split.
  - intros n t Hs. unfold ts_database_new. rewrite Ha. simpl bindR.
    unfold ndim, shape_at, stride_at, strides. rewrite Hs.
    change (Pos.to_nat 2) with 2%nat. change (Pos.to_nat 1) with 1%nat.
    cbn -[Z.mul Z.div itemsize].
    change (Pos.to_nat 2) with 2%nat. change (Pos.to_nat 1) with 1%nat.
    cbn -[Z.mul Z.div itemsize].
    rewrite ?Z.mul_1_r, ?div_itemsize. rewrite ?Z.div_same by discriminate.
    reflexivity.
  - intros n d t Hs. unfold ts_database_new. rewrite Ha. simpl bindR.
    unfold ndim, shape_at, stride_at, strides. rewrite Hs.
    change (Pos.to_nat 2) with 2%nat. change (Pos.to_nat 1) with 1%nat.
    cbn -[Z.mul Z.div itemsize].
    change (Pos.to_nat 2) with 2%nat. change (Pos.to_nat 1) with 1%nat.
    cbn -[Z.mul Z.div itemsize].
    rewrite ?Z.mul_1_r, ?div_itemsize. rewrite ?Z.div_same by discriminate.
    reflexivity.
Qed.

(** X1: [ts_database_new] on an array of two axes (n, t) describes n samples
    of t timesteps in one dimension, with sample stride t, timestep stride 1
    and dimension stride 0; on an array of three axes (n, d, t) it describes
    d dimensions with sample stride d*t, dimension stride t and timestep
    stride 1.  The data pointer is the array's own buffer. *)
Theorem ts_database_new_descriptor :
  forall (env : Env) (data a : ndarray),
    check_array_fast env data = OK a ->
    (forall n t, shape a = [n; t] ->
       ts_database_new env data = OK (mkTSDatabase n t 1 (flat a) t 1 0)) /\
    (forall n d t, shape a = [n; d; t] ->
       ts_database_new env data = OK (mkTSDatabase n t d (flat a) (d * t) 1 t)).
Proof.
  intros env data a Ha. apply ts_database_new_descriptor_aux. exact Ha.
Qed.

Lemma ts_database_new_descriptor_witness :
  check_array_fast Demo.env (mkArray [2; 3; 2] (repeat 0%float 12))
    = OK (mkArray [2; 3; 2] (repeat 0%float 12)) /\
  ts_database_new Demo.env (mkArray [2; 3; 2] (repeat 0%float 12))
    = OK (mkTSDatabase 2 2 3 (repeat 0%float 12) 6 1 2).
Proof.
  split.
  - reflexivity.
  - apply (ts_database_new_descriptor Demo.env (mkArray [2; 3; 2] (repeat 0%float 12))
             (mkArray [2; 3; 2] (repeat 0%float 12)) eq_refl).
    reflexivity.
Defined.

(** X2: [ts_database_new] does not report an array whose number of axes
    is not 2 or 3: the ValueError "ndim {0} < 2 or {0} > 3" it raises is
    dropped on the way out of the function (a [cdef] function returning a
    struct, without [except] clause), and the caller receives an
    indeterminate descriptor as if the call had succeeded. *)
Theorem ts_database_new_drops_the_rank_error :
  forall (env : Env) (data a : ndarray),
    check_array_fast env data = OK a ->
    ndim a < 2 \/ 3 < ndim a ->
    ts_database_new env data = OK (indeterminate_TSDatabase env).
Proof.
  intros env data a Ha Hr. unfold ts_database_new. rewrite Ha. simpl bindR.
  replace ((ndim a <? 2) || (3 <? ndim a)) with true; [reflexivity|].
  symmetry. apply orb_true_iff.
  destruct Hr as [H|H]; [left | right]; apply Z.ltb_lt; exact H.
Qed.

Lemma ts_database_new_drops_the_rank_error_witness :
  ts_database_new Demo.env (mkArray [1; 1; 1; 2] [0; 1]%float)
    = OK (indeterminate_TSDatabase Demo.env).
Proof.
  apply (ts_database_new_drops_the_rank_error Demo.env
           (mkArray [1; 1; 1; 2] [0; 1]%float)
           (mkArray [1; 1; 1; 2] [0; 1]%float) eq_refl).
  right. vm_compute. reflexivity.
Defined.

(** X3: in the descriptor of an array of three axes (n, d, t) that holds
    n*d*t cells, the strided address of timestep j of dimension k of sample
    i is the row-major position (i*d + k)*t + j, and the cell read there is
    that cell of the array. *)
Theorem database_cell_is_row_major :
  forall (env : Env) (data a : ndarray) (sd : TSDatabase) (n d t i k j : Z),
    check_array_fast env data = OK a ->
    shape a = [n; d; t] ->
    Z.of_nat (List.length (flat a)) = n * d * t ->
    n * d * t <= size_t_modulus ->
    0 <= i < n -> 0 <= k < d -> 0 <= j < t ->
    ts_database_new env data = OK sd ->
    exists v,
      nth_error (flat a) (Z.to_nat ((i * d + k) * t + j)) = Some v /\
      read_cells (td_data sd)
        (size_t_wrap (i * sample_stride sd + k * dim_stride sd + j * timestep_stride sd))
      = OK v.
Proof.
  intros env data a sd n d t i k j Ha Hs Hlen Hfit Hi Hk Hj Hsd.
  destruct (ts_database_new_descriptor_aux env data a Ha) as [_ H3].
  rewrite (H3 n d t Hs) in Hsd. inversion Hsd; subst sd. clear Hsd. simpl.
  assert (Hid : 0 <= i * d) by (apply Z.mul_nonneg_nonneg; lia).
  assert (Hpos : 0 <= (i * d + k) * t + j).
  { assert (0 <= (i * d + k) * t) by (apply Z.mul_nonneg_nonneg; lia). lia. }
  assert (Hrow : i * d + k + 1 <= n * d).
  { assert (i * d <= (n - 1) * d) by (apply Z.mul_le_mono_nonneg_r; lia). lia. }
  assert (Hlt : (i * d + k) * t + j < n * d * t).
  { assert ((i * d + k + 1) * t <= n * d * t)
      by (apply Z.mul_le_mono_nonneg_r; lia).
    lia. }
  replace (i * (d * t) + k * t + j * 1) with ((i * d + k) * t + j) by ring.
  unfold size_t_wrap. rewrite Z.mod_small by lia.
  destruct (nth_error (flat a) (Z.to_nat ((i * d + k) * t + j))) as [v|] eqn:En.
  - exists v. split; [reflexivity|].
    rewrite <- (Z2Nat.id ((i * d + k) * t + j)) at 1 by lia.
    rewrite read_cells_nth, En. reflexivity.
  - apply nth_error_None in En. lia.
Qed.

Lemma database_cell_is_row_major_witness :
  exists v,
    nth_error [0; 1; 2; 3; 4; 5; 6; 7; 8; 9; 10; 11]%float (Z.to_nat ((1 * 3 + 2) * 2 + 1))
      = Some v /\
    read_cells (td_data (mkTSDatabase 2 2 3 [0; 1; 2; 3; 4; 5; 6; 7; 8; 9; 10; 11]%float 6 1 2))
      (size_t_wrap (1 * 6 + 2 * 2 + 1 * 1)) = OK v.
Proof.
  apply (database_cell_is_row_major Demo.env
           (mkArray [2; 3; 2] [0; 1; 2; 3; 4; 5; 6; 7; 8; 9; 10; 11]%float)
           (mkArray [2; 3; 2] [0; 1; 2; 3; 4; 5; 6; 7; 8; 9; 10; 11]%float)
           (mkTSDatabase 2 2 3 [0; 1; 2; 3; 4; 5; 6; 7; 8; 9; 10; 11]%float 6 1 2)
           2 3 2 1 2 1); try reflexivity; try (vm_compute; intuition discriminate).
Defined.

(** X4: a one-dimensional data array of n values is validated into a single
    row, and its descriptor is one sample of n timesteps over the same
    cells. *)
Theorem one_dimensional_data_is_one_sample :
  forall (env : Env) (data a : ndarray) (n : Z),
    check_array env true data = OK a ->
    shape a = [n] ->
    check_array_fast env (mkArray [1; n] (flat a)) = OK (mkArray [1; n] (flat a)) ->
    _validate_data env data = OK (mkArray [1; n] (flat a)) /\
    ts_database_new env (mkArray [1; n] (flat a))
      = OK (mkTSDatabase 1 n 1 (flat a) n 1 0).
Proof.
  intros env data a n Ha Hs Hfast. split.
  - unfold _validate_data. rewrite Ha. simpl bindR.
    unfold ndim, reshape_row, shape_at. rewrite Hs. reflexivity.
  - destruct (ts_database_new_descriptor_aux env _ _ Hfast) as [H2 _].
    apply H2. reflexivity.
Qed.

Lemma one_dimensional_data_is_one_sample_witness :
  _validate_data Demo.env (Demo.vector [4; 5; 6]%float)
    = OK (mkArray [1; 3] [4; 5; 6]%float) /\
  ts_database_new Demo.env (mkArray [1; 3] [4; 5; 6]%float)
    = OK (mkTSDatabase 1 3 1 [4; 5; 6]%float 3 1 0).
Proof.
  apply (one_dimensional_data_is_one_sample Demo.env (Demo.vector [4; 5; 6]%float)
           (Demo.vector [4; 5; 6]%float) 3); reflexivity.
Defined.

(* ------------------------------------------------------------------ *)
(** ** Building and releasing copies and views *)

Lemma copy_from_ndarray_holds_the_values_aux
  (tc : TSCopy) (arr : ndarray) (dim : Z) (w : world) :
  shape_at arr 0 = Z.of_nat (List.length (flat arr)) ->
  malloc_succeeds w (brk w) = true ->
  Base.init_ts_copy_from_ndarray tc arr dim w =
  (mkWorld (malloc_succeeds w) (S (brk w))
     (trace w ++ [EvMalloc (size_t_wrap (shape_at arr 0 * sizeof_double))
                    (Block (brk w))]),
   OK (0, mkTSCopy (shape_at arr 0) dim NAN NAN
            (mkBuffer (Block (brk w)) (flat arr)) (ts_start tc) (ts_index tc))).
Proof.
  intros Hshape Hok.
  unfold Base.init_ts_copy_from_ndarray, bind, malloc. rewrite Hok.
  unfold lift. cbv zeta. rewrite Hshape, mapR_getitem_all. reflexivity.
Qed.

(** X5: when the allocation succeeds, [init_ts_copy_from_ndarray] of the
    base class returns 0 and a copy over a fresh block that holds exactly
    the values of the array, with the given dimension, the array's length
    and NaN for both statistics; the one event it adds is its malloc. *)
Theorem copy_from_ndarray_holds_the_values :
  forall (tc : TSCopy) (arr : ndarray) (dim : Z) (w : world),
    shape_at arr 0 = Z.of_nat (List.length (flat arr)) ->
    malloc_succeeds w (brk w) = true ->
    Base.init_ts_copy_from_ndarray tc arr dim w =
    (mkWorld (malloc_succeeds w) (S (brk w))
       (trace w ++ [EvMalloc (size_t_wrap (shape_at arr 0 * sizeof_double))
                      (Block (brk w))]),
     OK (0, mkTSCopy (shape_at arr 0) dim NAN NAN
              (mkBuffer (Block (brk w)) (flat arr)) (ts_start tc) (ts_index tc))).
Proof.
  intros tc arr dim w Hshape Hok.
  apply copy_from_ndarray_holds_the_values_aux; assumption.
Qed.

Lemma copy_from_ndarray_holds_the_values_witness :
  Base.init_ts_copy_from_ndarray (indeterminate_TSCopy Demo.env)
    (Demo.vector [4; 5; 6]%float) 0 (init_world Demo.always) =
  (mkWorld Demo.always 1 [EvMalloc 24 (Block 0)],
   OK (0, mkTSCopy 3 0 NAN NAN (mkBuffer (Block 0) [4; 5; 6]%float) 0 0)).
Proof.
  apply (copy_from_ndarray_holds_the_values (indeterminate_TSCopy Demo.env)
           (Demo.vector [4; 5; 6]%float) 0 (init_world Demo.always));
    reflexivity.
Defined.

(** X6: when the allocation fails, [init_ts_copy_from_ndarray] returns -1
    with a copy whose data pointer is [NULL], in the base class and in the
    scaled class alike; the scaled class computes no statistics then. *)
Theorem copy_from_ndarray_reports_failed_allocation :
  forall (np_mean np_std : ndarray -> float) (tc : TSCopy) (arr : ndarray)
         (dim : Z) (w : world),
    malloc_succeeds w (brk w) = false ->
    let failed :=
      (mkWorld (malloc_succeeds w) (S (brk w))
         (trace w ++ [EvMalloc (size_t_wrap (shape_at arr 0 * sizeof_double)) NULL]),
       OK (-1, mkTSCopy (shape_at arr 0) dim NAN NAN (mkBuffer NULL [])
                 (ts_start tc) (ts_index tc))) in
    Base.init_ts_copy_from_ndarray tc arr dim w = failed /\
    Scaled.init_ts_copy_from_ndarray np_mean np_std tc arr dim w = failed.
Proof.
  intros np_mean np_std tc arr dim w Hfail failed.
  assert (Hbase : Base.init_ts_copy_from_ndarray tc arr dim w = failed).
  { unfold Base.init_ts_copy_from_ndarray, bind, malloc. rewrite Hfail. reflexivity. }
  split; [exact Hbase|].
  unfold Scaled.init_ts_copy_from_ndarray, bind. rewrite Hbase. reflexivity.
Qed.

Lemma copy_from_ndarray_reports_failed_allocation_witness :
  Base.init_ts_copy_from_ndarray (indeterminate_TSCopy Demo.env)
    (Demo.vector [4; 5; 6]%float) 0 (init_world Demo.never) =
  (mkWorld Demo.never 1 [EvMalloc 24 NULL],
   OK (-1, mkTSCopy 3 0 NAN NAN (mkBuffer NULL []) 0 0)) /\
  Scaled.init_ts_copy_from_ndarray Demo.np_mean Demo.np_std
    (indeterminate_TSCopy Demo.env) (Demo.vector [4; 5; 6]%float) 0
    (init_world Demo.never) =
  (mkWorld Demo.never 1 [EvMalloc 24 NULL],
   OK (-1, mkTSCopy 3 0 NAN NAN (mkBuffer NULL []) 0 0)).
Proof.
  apply (copy_from_ndarray_reports_failed_allocation Demo.np_mean Demo.np_std
           (indeterminate_TSCopy Demo.env) (Demo.vector [4; 5; 6]%float) 0
           (init_world Demo.never)).
  reflexivity.
Defined.

(** X7: when the allocation succeeds, [init_ts_copy_from_ndarray] of the
    scaled class returns 0 and the copy of the base class with [np.mean] and
    [np.std] of the array stored as mean and standard deviation. *)
Theorem scaled_copy_from_ndarray_stores_the_statistics :
  forall (np_mean np_std : ndarray -> float) (tc : TSCopy) (arr : ndarray)
         (dim : Z) (w : world),
    shape_at arr 0 = Z.of_nat (List.length (flat arr)) ->
    malloc_succeeds w (brk w) = true ->
    Scaled.init_ts_copy_from_ndarray np_mean np_std tc arr dim w =
    (mkWorld (malloc_succeeds w) (S (brk w))
       (trace w ++ [EvMalloc (size_t_wrap (shape_at arr 0 * sizeof_double))
                      (Block (brk w))]),
     OK (0, mkTSCopy (shape_at arr 0) dim (np_mean arr) (np_std arr)
              (mkBuffer (Block (brk w)) (flat arr)) (ts_start tc) (ts_index tc))).
Proof.
  intros np_mean np_std tc arr dim w Hshape Hok.
  unfold Scaled.init_ts_copy_from_ndarray, bind.
  rewrite (copy_from_ndarray_holds_the_values_aux tc arr dim w Hshape Hok).
  reflexivity.
Qed.

Lemma scaled_copy_from_ndarray_stores_the_statistics_witness :
  Scaled.init_ts_copy_from_ndarray Demo.np_mean Demo.np_std
    (indeterminate_TSCopy Demo.env) (Demo.vector [1; 2; 3]%float) 0
    (init_world Demo.always) =
  (mkWorld Demo.always 1 [EvMalloc 24 (Block 0)],
   OK (0, mkTSCopy 3 0 2%float 0x1.a20bd700c2c3ep-1%float
            (mkBuffer (Block 0) [1; 2; 3]%float) 0 0)).
Proof.
  apply (scaled_copy_from_ndarray_stores_the_statistics Demo.np_mean Demo.np_std
           (indeterminate_TSCopy Demo.env) (Demo.vector [1; 2; 3]%float) 0
           (init_world Demo.always));
    reflexivity.
Defined.

(** X8: [ts_view_free] releases the payload of a view at most once: it
    leaves the [extra] pointer at [NULL], and a second call on the view it
    returns frees nothing and changes nothing. *)
Theorem ts_view_free_is_idempotent :
  forall (tv : TSView) (w : world),
    exists (w1 : world) (tv1 : TSView),
      ts_view_free tv w = (w1, OK tv1) /\
      tv_extra tv1 = NULL /\
      ts_view_free tv1 w1 = (w1, OK tv1) /\
      forall p, freed p (trace w1) =
                (freed p (trace w) +
                 match tv_extra tv, p with
                 | Block a, Block b => if Nat.eqb a b then 1 else 0
                 | _, _ => 0
                 end)%nat.
Proof.
  intros tv w. unfold ts_view_free at 1.
  destruct (tv_extra tv) as [|id] eqn:He.
  - exists w, tv. split; [reflexivity|]. split; [exact He|].
    split; [unfold ts_view_free; rewrite He; reflexivity|].
    intros p. lia.
  - eexists. eexists. split; [reflexivity|]. split; [reflexivity|].
    split; [reflexivity|].
    intros p. simpl. rewrite freed_app. f_equal.
    unfold freed. simpl. destruct p as [|b]; [reflexivity|].
    destruct (Nat.eqb id b); reflexivity.
Qed.

(** X9: [ts_copy_free] does nothing for a null struct pointer or a null
    data pointer, and otherwise frees the data block without resetting the
    pointer: called again on the same struct it frees the same block a
    second time. *)
Theorem ts_copy_free_does_not_reset_the_pointer :
  forall (tc : TSCopy) (w : world),
    ts_copy_free None w = (w, OK tt) /\
    (address (tc_data tc) = NULL -> ts_copy_free (Some tc) w = (w, OK tt)) /\
    (forall id, address (tc_data tc) = Block id ->
       fst ((ts_copy_free (Some tc) ;;; ts_copy_free (Some tc)) w) =
       mkWorld (malloc_succeeds w) (brk w)
         (trace w ++ [EvFree (Block id)] ++ [EvFree (Block id)])).
Proof.
  intros tc w. split; [reflexivity|]. split.
  - intros Hn. unfold ts_copy_free. rewrite Hn. reflexivity.
  - intros id Hb. unfold ts_copy_free, bind. rewrite Hb. simpl.
    rewrite <- app_assoc. reflexivity.
Qed.

(* ------------------------------------------------------------------ *)
(** ** From a view to a copy *)

Lemma copy_cells_mapR (td : TSDatabase) (tc_offset : Z) (indices : list Z) :
  copy_cells td tc_offset indices =
  mapR (fun i => read_cells (td_data td)
                   (size_t_wrap (tc_offset + timestep_stride td * i))) indices.
Proof.
  induction indices as [|i rest IH]; simpl.
  - reflexivity.
  - rewrite IH. reflexivity.
Qed.

Lemma init_ts_copy_success (tc : TSCopy) (tv : TSView) (td : TSDatabase) (w : world)
  (values : list float) :
  malloc_succeeds w (brk w) = true ->
  mapR (fun i => read_cells (td_data td)
                   (size_t_wrap
                      (size_t_wrap (tv_index tv * sample_stride td +
                                    tv_start tv * timestep_stride td +
                                    tv_dim tv * dim_stride td)
                       + timestep_stride td * i)))
       (range (tv_length tv)) = OK values ->
  init_ts_copy tc tv td w =
  (mkWorld (malloc_succeeds w) (S (brk w))
     (trace w ++ [EvMalloc (size_t_wrap (sizeof_double * tv_length tv)) (Block (brk w))]),
   OK (0, mkTSCopy (tv_length tv) (tv_dim tv) (tv_mean tv) (tv_std tv)
            (mkBuffer (Block (brk w)) values) (tv_start tv) (tv_index tv))).
Proof.
  intros Hok Hread.
  unfold init_ts_copy, ts_copy_init, bind, malloc. rewrite Hok. simpl.
  unfold lift. rewrite copy_cells_mapR, Hread. reflexivity.
Qed.

(** X10: when the allocation succeeds and the cells of the view can be
    read, [init_ts_copy] returns 0 and a copy over a fresh block that holds
    the values of the view in order, with the view's length, dimension, mean
    and standard deviation, and with the view's start and sample index as
    provenance. *)
Theorem init_ts_copy_copies_the_view :
  forall (tc : TSCopy) (tv : TSView) (td : TSDatabase) (w : world)
         (values : list float),
    malloc_succeeds w (brk w) = true ->
    mapR (fun i => read_cells (td_data td)
                     (size_t_wrap
                        (size_t_wrap (tv_index tv * sample_stride td +
                                      tv_start tv * timestep_stride td +
                                      tv_dim tv * dim_stride td)
                         + timestep_stride td * i)))
         (range (tv_length tv)) = OK values ->
    init_ts_copy tc tv td w =
    (mkWorld (malloc_succeeds w) (S (brk w))
       (trace w ++ [EvMalloc (size_t_wrap (sizeof_double * tv_length tv)) (Block (brk w))]),
     OK (0, mkTSCopy (tv_length tv) (tv_dim tv) (tv_mean tv) (tv_std tv)
              (mkBuffer (Block (brk w)) values) (tv_start tv) (tv_index tv))).
Proof.
  intros tc tv td w values. apply init_ts_copy_success.
Qed.

Lemma init_ts_copy_copies_the_view_witness :
  init_ts_copy (indeterminate_TSCopy Demo.env)
    (mkTSView 1 1 2 0 NAN NAN NULL)
    (mkTSDatabase 2 3 1 [0; 1; 2; 3; 4; 5]%float 3 1 0)
    (init_world Demo.always) =
  (mkWorld Demo.always 1 [EvMalloc 16 (Block 0)],
   OK (0, mkTSCopy 2 0 NAN NAN (mkBuffer (Block 0) [4; 5]%float) 1 1)).
Proof.
  apply (init_ts_copy_copies_the_view (indeterminate_TSCopy Demo.env)
           (mkTSView 1 1 2 0 NAN NAN NULL)
           (mkTSDatabase 2 3 1 [0; 1; 2; 3; 4; 5]%float 3 1 0)
           (init_world Demo.always) [4; 5]%float);
    reflexivity.
Defined.

(** X11: [init_ts_copy] ignores the return code of [ts_copy_init]: when the
    allocation fails and the view is not empty, it goes on to store through
    the null data pointer instead of returning an error code. *)
Theorem init_ts_copy_ignores_failed_allocation :
  forall (tc : TSCopy) (tv : TSView) (td : TSDatabase) (w : world),
    malloc_succeeds w (brk w) = false ->
    0 < tv_length tv ->
    init_ts_copy tc tv td w =
    (mkWorld (malloc_succeeds w) (S (brk w))
       (trace w ++ [EvMalloc (size_t_wrap (sizeof_double * tv_length tv)) NULL]),
     Raise Fault).
Proof.
  intros tc tv td w Hfail Hlen.
  unfold init_ts_copy, ts_copy_init, bind, malloc. rewrite Hfail. simpl.
  apply Z.ltb_lt in Hlen. rewrite Hlen. reflexivity.
Qed.

Lemma init_ts_copy_ignores_failed_allocation_witness :
  init_ts_copy (indeterminate_TSCopy Demo.env)
    (mkTSView 1 1 2 0 NAN NAN NULL)
    (mkTSDatabase 2 3 1 [0; 1; 2; 3; 4; 5]%float 3 1 0)
    (init_world Demo.never) =
  (mkWorld Demo.never 1 [EvMalloc 16 NULL], Raise Fault).
Proof.
  apply (init_ts_copy_ignores_failed_allocation (indeterminate_TSCopy Demo.env)
           (mkTSView 1 1 2 0 NAN NAN NULL)
           (mkTSDatabase 2 3 1 [0; 1; 2; 3; 4; 5]%float 3 1 0)
           (init_world Demo.never)).
  - reflexivity.
  - reflexivity.
Defined.

(* ------------------------------------------------------------------ *)
(** ** Distances from a view to many samples *)

Lemma store_nat_app_inv {A} (a l l' : list A) (v : A) :
  store_nat (a ++ l) (List.length a) v = Some l' ->
  exists z r, l = z :: r /\ l' = a ++ v :: r.
Proof.
  revert l'. induction a as [|x a IH]; intros l' H; simpl in H.
  - destruct l as [|z r]; [discriminate H|]. inversion H. exists z, r. split; reflexivity.
  - destruct (store_nat (a ++ l) (List.length a) v) as [l1|] eqn:E.
    + simpl in H. inversion H; subst l'.
      destruct (IH l1 eq_refl) as (z & r & Hl & Hl1).
      exists z, r. split; [exact Hl|]. simpl. rewrite Hl1. reflexivity.
    + destruct (a ++ l); discriminate H.
Qed.

Lemma skipn_cons_tail {A} (l : list A) (k : nat) (z : A) (r : list A) :
  skipn k l = z :: r -> r = skipn (S k) l.
Proof.
  intros H. replace (S k) with (1 + k)%nat by lia.
  rewrite <- skipn_skipn, H. reflexivity.
Qed.

Lemma sub_distances_loop_spec
  (f : TSView -> TSDatabase -> Z -> result float) (s : TSView) (td : TSDatabase)
  (samples : list Z) (dist0 : list float) :
  forall (m k : nat) (done out : list float),
    List.length done = k ->
    sub_distances_loop f s td samples (done ++ skipn k dist0)
      (map Z.of_nat (seq k m)) = OK out ->
    exists ds,
      out = done ++ ds ++ skipn (k + m) dist0 /\
      List.length ds = m /\
      Forall2 (fun t d => f s td t = OK d) (firstn m (skipn k samples)) ds.
Proof.
  induction m as [|m IH]; intros k done out Hlen H.
  - simpl in H. inversion H; subst out. exists []. rewrite Nat.add_0_r.
    split; [reflexivity|]. split; [reflexivity | constructor].
  - subst k. cbn [seq map sub_distances_loop] in H.
    rewrite read_cells_nth in H.
    destruct (nth_error samples (List.length done)) as [t|] eqn:Et; simpl in H;
      [|discriminate H].
    destruct (f s td t) as [d|e] eqn:Ed; simpl in H; [|discriminate H].
    unfold write_cells in H.
    destruct (Z.of_nat (List.length done) <? 0) eqn:Ek; [apply Z.ltb_lt in Ek; lia|].
    rewrite Nat2Z.id in H.
    destruct (store_nat (done ++ skipn (List.length done) dist0) (List.length done) d)
      as [cur|] eqn:Es; simpl in H; [|discriminate H].
    apply store_nat_app_inv in Es. destruct Es as (z & r & Hsk & Hcur).
    apply skipn_cons_tail in Hsk. subst r cur.
    replace (done ++ d :: skipn (S (List.length done)) dist0)
      with ((done ++ [d]) ++ skipn (S (List.length done)) dist0) in H
      by (rewrite <- app_assoc; reflexivity).
    apply IH in H; [|rewrite length_app; simpl; lia].
    destruct H as (ds & Hout & Hds & Hall).
    exists (d :: ds). split.
    + rewrite Hout, <- app_assoc.
      replace (S (List.length done) + m)%nat with (List.length done + S m)%nat by lia.
      reflexivity.
    + split; [simpl; lia|].
      rewrite (skipn_nth_cons samples (List.length done) t Et). simpl.
      constructor; assumption.
Qed.

(** X12: when [ts_view_sub_distances] returns, the first [n_samples] cells
    of [distances] hold, in order, the distances from the view to the
    samples named by the first [n_samples] cells of [samples], and the cells
    after them are as they were. *)
Theorem ts_view_sub_distances_fills_the_prefix :
  forall (f : TSView -> TSDatabase -> Z -> result float) (s : TSView)
         (td : TSDatabase) (samples : list Z) (distances out : list float)
         (n_samples : Z),
    ts_view_sub_distances f s td samples distances n_samples = OK out ->
    exists ds,
      out = ds ++ skipn (Z.to_nat n_samples) distances /\
      List.length ds = Z.to_nat n_samples /\
      Forall2 (fun t d => f s td t = OK d)
              (firstn (Z.to_nat n_samples) samples) ds.
Proof.
  intros f s td samples distances out n_samples H.
  unfold ts_view_sub_distances, range in H.
  apply (sub_distances_loop_spec f s td samples distances
           (Z.to_nat n_samples) 0%nat [] out eq_refl) in H.
  destruct H as (ds & Hout & Hlen & Hall). exists ds.
  split; [exact Hout|]. split; [exact Hlen | exact Hall].
Qed.

Lemma ts_view_sub_distances_fills_the_prefix_witness :
  ts_view_sub_distances (Func.ts_view_sub_distance 2 Demo.manhattan)
    (mkTSView 0 0 2 0 NAN NAN NULL)
    (mkTSDatabase 2 2 1 [0; 0; 3; 4]%float 2 1 0)
    [1; 0; 1] [9; 9; 9]%float 2 = OK [7; 0; 9]%float
  /\
  exists ds,
    [7; 0; 9]%float = ds ++ skipn (Z.to_nat 2) [9; 9; 9]%float /\
    List.length ds = Z.to_nat 2 /\
    Forall2 (fun t d =>
               Func.ts_view_sub_distance 2 Demo.manhattan
                 (mkTSView 0 0 2 0 NAN NAN NULL)
                 (mkTSDatabase 2 2 1 [0; 0; 3; 4]%float 2 1 0) t = OK d)
            (firstn (Z.to_nat 2) [1; 0; 1]) ds.
Proof.
  split.
  - vm_compute. reflexivity.
  - apply (ts_view_sub_distances_fills_the_prefix
             (Func.ts_view_sub_distance 2 Demo.manhattan)
             (mkTSView 0 0 2 0 NAN NAN NULL)
             (mkTSDatabase 2 2 1 [0; 0; 3; 4]%float 2 1 0)
             [1; 0; 1] [9; 9; 9]%float [7; 0; 9]%float 2).
    vm_compute. reflexivity.
Defined.

(* ------------------------------------------------------------------ *)
(** ** The callable-backed measure *)



Lemma mapR_nth_error {A B} (f : A -> result B) (l : list A) (bs : list B) :
  mapR f l = OK bs ->
  forall k b, nth_error bs k = Some b -> exists a, nth_error l k = Some a /\ f a = OK b.
Proof.
  intros H. apply mapR_Forall2 in H.
  induction H as [|a0 b0 l bs Hab Hrest IH]; intros k b Hk.
  - destruct k; discriminate Hk.
  - destruct k as [|k]; simpl in *.
    + inversion Hk; subst. exists a0. split; [reflexivity | exact Hab].
    + apply IH. exact Hk.
Qed.

Lemma mapR_range_nth {B} (f : Z -> result B) (n : Z) (bs : list B) :
  mapR f (range n) = OK bs ->
  List.length bs = Z.to_nat n /\
  forall k b, nth_error bs k = Some b -> f (Z.of_nat k) = OK b.
Proof.
  intros H. split.
  - rewrite (mapR_length _ _ _ H). apply range_length.
  - intros k b Hk.
    destruct (mapR_nth_error _ _ _ H k b Hk) as (a & Ha & Hf).
    assert (Hlt : (k < Z.to_nat n)%nat).
    { rewrite <- range_length. apply nth_error_Some. rewrite Ha. discriminate. }
    rewrite range_nth_error in Ha by exact Hlt. inversion Ha; subst a. exact Hf.
Qed.



(** The loop looks at the pattern only below its length. *)
Lemma fill_ext (p1 p2 : Z -> result float) (L : Z) (td : TSDatabase) (off : Z)
  (indices : list Z) :
  (forall i, In i indices -> i < L -> p1 i = p2 i) ->
  forall x y, Func.fill p1 L td off indices x y = Func.fill p2 L td off indices x y.
Proof.
  induction indices as [|i rest IH]; intros Hext x y.
  - reflexivity.
  - cbn [Func.fill].
    assert (Hi : (if i <? L then let! v := p1 i in store x i v else OK x)
                 = (if i <? L then let! v := p2 i in store x i v else OK x)).
    { destruct (i <? L) eqn:E; [|reflexivity].
      apply Z.ltb_lt in E. rewrite (Hext i (or_introl eq_refl) E). reflexivity. }
    rewrite Hi.
    destruct (if i <? L then let! v := p2 i in store x i v else OK x) as [x'|e];
      [|reflexivity].
    cbn [bindR].
    destruct (read_cells (td_data td) (size_t_wrap (off + timestep_stride td * i)))
      as [v|e]; [|reflexivity].
    cbn [bindR]. destruct (store y i v) as [y'|e]; [|reflexivity].
    cbn [bindR]. apply IH. intros j Hj. apply Hext. right. exact Hj.
Qed.

Lemma in_range (n i : Z) : In i (range n) -> exists k, i = Z.of_nat k /\ (k < Z.to_nat n)%nat.
Proof.
  unfold range. intros H. apply in_map_iff in H. destruct H as (k & Hk & Hin).
  apply in_seq in Hin. exists k. split; [symmetry; exact Hk | lia].
Qed.

(** X14: a copy made by [init_ts_copy] from a view is, for the
    callable-backed measure, the same pattern as the view: the kernel on the
    copy and the kernel on the view give the same distance to every target
    sample (or fail alike). *)
Theorem func_kernels_agree_on_view_and_copy :
  forall (n : Z) (func : callable) (tc : TSCopy) (tv : TSView) (td : TSDatabase)
         (w w' : world) (rc : Z) (tc' : TSCopy) (t_index : Z),
    init_ts_copy tc tv td w = (w', OK (rc, tc')) ->
    Func.ts_copy_sub_distance n func tc' td t_index =
    (let! d := Func.ts_view_sub_distance n func tv td t_index in OK (d, None)).
Proof.
  intros n func tc tv td w w' rc tc' t_index H.
  assert (Hfacts :
    tc_length tc' = tv_length tv /\ tc_dim tc' = tv_dim tv /\
    forall i, In i (range (n_timestep td)) -> i < tv_length tv ->
      read (tc_data tc') i =
      read_cells (td_data td)
        (size_t_wrap
           (size_t_wrap (tv_index tv * sample_stride td + tv_dim tv * dim_stride td +
                         tv_start tv * timestep_stride td)
            + timestep_stride td * i))).
  { unfold init_ts_copy, ts_copy_init, bind, malloc in H.
    destruct (malloc_succeeds w (brk w)); cbn [address tc_data ret] in H.
    - unfold lift in H. rewrite copy_cells_mapR in H.
      destruct (mapR _ (range (tv_length tv))) as [values|e] eqn:Hv; [|discriminate H].
      inversion H; subst. clear H. cbn [tc_length tc_dim tc_data].
      split; [reflexivity|]. split; [reflexivity|].
      intros i Hin Hlt. apply in_range in Hin. destruct Hin as (k & Hi & _). subst i.
      destruct (mapR_range_nth _ _ _ Hv) as [Hlen Hnth].
      unfold read. cbn [address cells]. rewrite read_cells_nth.
      destruct (nth_error values k) as [v|] eqn:Ek.
      + rewrite <- (Hnth k v Ek). f_equal. f_equal. f_equal. f_equal. ring.
      + apply nth_error_None in Ek. lia.
    - destruct (0 <? tv_length tv) eqn:E; [discriminate H|].
      unfold ret in H. inversion H; subst. clear H. cbn [tc_length tc_dim tc_data].
      split; [reflexivity|]. split; [reflexivity|].
      intros i Hin Hlt. apply in_range in Hin. destruct Hin as (k & Hi & _).
      apply Z.ltb_ge in E. lia. }
  destruct Hfacts as (HL & Hd & Hread).
  unfold Func.ts_copy_sub_distance, Func.ts_view_sub_distance.
  rewrite HL, Hd.
  rewrite (fill_ext _ _ _ _ _ _ Hread).
  destruct (Func.fill _ _ _ _ _ _ _) as [[x y]|e]; cbn [bindR].
  - destruct (func _ _) as [d|e]; [reflexivity | destruct e; reflexivity].
  - destruct e; reflexivity.
Qed.

Lemma func_kernels_agree_on_view_and_copy_witness :
  Func.ts_copy_sub_distance 3 Demo.manhattan
    (mkTSCopy 2 0 NAN NAN (mkBuffer (Block 0) [4; 5]%float) 1 1)
    (mkTSDatabase 2 3 1 [0; 1; 2; 3; 4; 5]%float 3 1 0) 0 =
  (let! d := Func.ts_view_sub_distance 3 Demo.manhattan
               (mkTSView 1 1 2 0 NAN NAN NULL)
               (mkTSDatabase 2 3 1 [0; 1; 2; 3; 4; 5]%float 3 1 0) 0 in
   OK (d, None)).
Proof.
  apply (func_kernels_agree_on_view_and_copy 3 Demo.manhattan
           (indeterminate_TSCopy Demo.env)
           (mkTSView 1 1 2 0 NAN NAN NULL)
           (mkTSDatabase 2 3 1 [0; 1; 2; 3; 4; 5]%float 3 1 0)
           (init_world Demo.always)
           (mkWorld Demo.always 1 [EvMalloc 16 (Block 0)]) 0
           (mkTSCopy 2 0 NAN NAN (mkBuffer (Block 0) [4; 5]%float) 1 1) 0).
  reflexivity.
Defined.

(* ------------------------------------------------------------------ *)
(** ** Choosing the measure *)

(** X15: a metric given by name is looked up among exactly four names:
    each of them is constructed by its class with the number of timesteps
    and the parameters (none when [metric_params] is [None]), and every other
    string is refused with "metric (...) is not supported". *)
Theorem new_distance_measure_knows_four_names :
  forall (env : Env) (n_timestep : Z) (name : string),
    (forall params,
       new_distance_measure env (MetricStr "euclidean") n_timestep (Some params)
         = EuclideanDistance env n_timestep params /\
       new_distance_measure env (MetricStr "dtw") n_timestep (Some params)
         = DtwDistance env n_timestep params /\
       new_distance_measure env (MetricStr "scaled_euclidean") n_timestep (Some params)
         = ScaledEuclideanDistance env n_timestep params /\
       new_distance_measure env (MetricStr "scaled_dtw") n_timestep (Some params)
         = ScaledDtwDistance env n_timestep params) /\
    new_distance_measure env (MetricStr "euclidean") n_timestep None
      = EuclideanDistance env n_timestep [] /\
    (name <> "euclidean"%string -> name <> "dtw"%string ->
     name <> "scaled_euclidean"%string -> name <> "scaled_dtw"%string ->
     forall params,
       new_distance_measure env (MetricStr name) n_timestep params
         = Raise (ValueError (MetricNotSupported name))).
Proof.
  intros env n_timestep name. split; [intros params; repeat split|].
  split; [reflexivity|].
  intros H1 H2 H3 H4 params. unfold new_distance_measure, _DISTANCE_MEASURE.
  cbn [dict_get].
  apply not_eq_sym in H1, H2, H3, H4.
  apply String.eqb_neq in H1, H2, H3, H4.
  rewrite H1, H2, H3, H4. reflexivity.
Qed.

(** X16: a callable metric always gives the callable-backed measure, sized
    to the number of timesteps and without unaligned support, whatever the
    metric parameters are: they are not passed on.  A metric that is neither
    a string nor callable is refused with "unknown metric". *)
Theorem new_distance_measure_wraps_callables :
  forall (env : Env) (func : callable) (n_timestep : Z) (params : option kwargs),
    0 <= n_timestep < size_t_modulus ->
    new_distance_measure env (MetricCallable func) n_timestep params
      = OK (Func.new n_timestep func) /\
    new_distance_measure env MetricOther n_timestep params
      = Raise (ValueError UnknownMetric).
Proof.
  intros env func n_timestep params [H0 Hn]. split; [|reflexivity].
  unfold new_distance_measure, as_size_t.
  apply Z.ltb_ge in H0. rewrite H0.
  assert (Hle : (size_t_modulus <=? n_timestep) = false) by (apply Z.leb_gt; lia).
  rewrite Hle. reflexivity.
Qed.

Lemma new_distance_measure_wraps_callables_witness :
  new_distance_measure Demo.env (MetricCallable Demo.manhattan) 5
    (Some [("r"%string, 1%float)])
    = OK (Func.new 5 Demo.manhattan) /\
  new_distance_measure Demo.env MetricOther 5 (Some [("r"%string, 1%float)])
    = Raise (ValueError UnknownMetric).
Proof.
  apply (new_distance_measure_wraps_callables Demo.env Demo.manhattan 5
           (Some [("r"%string, 1%float)])).
  unfold size_t_modulus. lia.
Defined.

(* ------------------------------------------------------------------ *)
(** ** The sample argument *)

(** X17: a call without [sample] is the call for sample 0 when the data
    hold one series, and otherwise the batch call over all the samples
    0, 1, ..., n-1 in order - in [distance] and in [matches]. *)
Theorem omitted_sample_means_all_samples :
  forall (env : Env) (shapelet data : ndarray) (dim : Z) (metric : py_metric)
         (params : option kwargs) (flag1 flag2 : bool) (threshold : float)
         (w : world) (x : ndarray),
    _validate_data env data = OK x ->
    let all := if shape_at x 0 =? 1
               then SampleInt 0
               else SampleSeq (range (shape_at x 0)) in
    distance env shapelet data dim SampleNone metric params flag1 flag2 w
      = distance env shapelet data dim all metric params flag1 flag2 w /\
    matches env shapelet data threshold dim SampleNone metric params flag1 w
      = matches env shapelet data threshold dim all metric params flag1 w.
Proof.
  intros env shapelet data dim metric params flag1 flag2 threshold w x Hx all.
  assert (Hall : default_sample x all = default_sample x SampleNone).
  { subst all. simpl. destruct (shape_at x 0 =? 1); reflexivity. }
  split.
  - unfold distance, bind, lift. rewrite Hx.
    destruct (_validate_shapelet env shapelet) as [s|e]; [|reflexivity].
    rewrite Hall. reflexivity.
  - unfold matches, bind, lift. rewrite Hx.
    destruct (_validate_shapelet env shapelet) as [s|e]; [|reflexivity].
    rewrite Hall. reflexivity.
Qed.

Lemma omitted_sample_means_all_samples_witness :
  distance Demo.env (Demo.vector [0; 0]%float) (Demo.matrix [[0; 0]; [3; 4]]%float)
    0 SampleNone (MetricStr "euclidean") None true true (init_world Demo.always)
  = distance Demo.env (Demo.vector [0; 0]%float) (Demo.matrix [[0; 0]; [3; 4]]%float)
      0 (SampleSeq [0; 1]) (MetricStr "euclidean") None true true
      (init_world Demo.always)
  /\
  matches Demo.env (Demo.vector [0; 0]%float) (Demo.matrix [[0; 0]; [3; 4]]%float)
    1%float 0 SampleNone (MetricStr "euclidean") None true (init_world Demo.always)
  = matches Demo.env (Demo.vector [0; 0]%float) (Demo.matrix [[0; 0]; [3; 4]]%float)
      1%float 0 (SampleSeq [0; 1]) (MetricStr "euclidean") None true
      (init_world Demo.always).
Proof.
  apply (omitted_sample_means_all_samples Demo.env (Demo.vector [0; 0]%float)
           (Demo.matrix [[0; 0]; [3; 4]]%float) 0 (MetricStr "euclidean") None
           true true 1%float (init_world Demo.always)
           (Demo.matrix [[0; 0]; [3; 4]]%float)).
  reflexivity.
Defined.

(* ------------------------------------------------------------------ *)
(** ** What [distance] returns *)

Lemma sub_distance_call_OK (env : Env) (dm : DistanceMeasure) (shape : TSCopy)
  (sd : TSDatabase) (i min_index : Z) (w w' : world) (d : float) (j : Z) :
  sub_distance_call env dm shape sd (SampleInt i) min_index w = (w', OK (d, j)) ->
  exists written,
    ts_copy_sub_distance dm shape sd i = OK (d, written) /\
    j = match written with Some k => k | None => min_index end.
Proof.
  unfold sub_distance_call. intros H.
  pure_step H as t Ht. simpl in Ht. apply as_size_t_OK in Ht. subst t.
  step H as [d0 written] Hk. apply kernel_call_OK in Hk.
  apply ret_OK in H. destruct H as [H _]. inversion H; subst.
  exists written. split; [exact Hk | reflexivity].
Qed.

(** In subsequence mode every turn of the loop of [distance] calls the
    kernel for its own sample index. *)
Lemma distance_loop_subsequence (env : Env) (dm : DistanceMeasure) (shape : TSCopy)
  (sd : TSDatabase) (sample : py_sample) (samples : list Z) :
  forall (min_index : Z) (dist : list float) (ind : list Z) (w w' : world)
         (dist' : list float) (ind' : list Z),
    distance_loop env dm shape sd true sample samples min_index dist ind w
      = (w', OK (dist', ind')) ->
    exists results : list (float * option Z),
      Forall2 (fun i r => ts_copy_sub_distance dm shape sd i = OK r) samples results /\
      dist' = dist ++ map fst results /\
      ind' = ind ++ carried_index min_index (map snd results).
Proof.
  induction samples as [|i rest IH]; intros min_index dist ind w w' dist' ind' H.
  - cbn [distance_loop] in H. apply ret_OK in H. destruct H as [H _].
    inversion H; subst. exists []. simpl. rewrite !app_nil_r.
    split; [constructor|]. split; reflexivity.
  - cbn [distance_loop] in H. step H as [d j] Hone.
    apply sub_distance_call_OK in Hone. destruct Hone as (written & Hk & Hj).
    apply IH in H. destruct H as (results & Hall & Hdist & Hind).
    exists ((d, written) :: results). split; [constructor; assumption|].
    simpl. rewrite Hdist, Hind, <- !app_assoc. simpl. subst j.
    split; reflexivity.
Qed.

Lemma func_kernel_stores_no_position (n : Z) (func : callable) (s : TSCopy)
  (td : TSDatabase) (t : Z) (res : float * option Z) :
  Func.ts_copy_sub_distance n func s td t = OK res -> snd res = None.
Proof.
  unfold Func.ts_copy_sub_distance. intros H.
  destruct (Func.fill _ _ _ _ _ _ _) as [[x y]|e]; cbn [bindR] in H.
  - destruct (func _ _) as [d|e]; cbn [bindR unraisable] in H.
    + inversion H. reflexivity.
    + destruct e; inversion H; reflexivity.
  - destruct e; inversion H; reflexivity.
Qed.

Lemma carried_index_none (u : Z) (ws : list (option Z)) :
  Forall (fun wr => wr = None) ws -> carried_index u ws = repeat u (List.length ws).
Proof.
  induction 1 as [|wr ws Hw Hrest IH]; simpl.
  - reflexivity.
  - subst wr. rewrite IH. reflexivity.
Qed.

(** X20: with a user metric, the positions [distance] returns in
    subsequence mode are not positions at all: the kernel of the
    callable-backed measure stores none, so every entry is whatever the
    uninitialised C local [min_index] held. *)
Theorem callable_metric_returns_an_indeterminate_index :
  forall (env : Env) (shapelet data : ndarray) (dim : Z) (sample : py_sample)
         (func : callable) (params : option kwargs) (w : world) (r : distance_result),
    snd (distance env shapelet data dim sample (MetricCallable func) params true true w)
      = OK r ->
    (exists d, r = DistIndex d (indeterminate_size_t env)) \/
    (exists dist, r = DistIndexArray dist
                        (repeat (indeterminate_size_t env) (List.length dist))).
Proof.
  intros env shapelet data dim sample func params w r H.
  destruct (distance _ _ _ _ _ _ _ _ _ w) as [w' r'] eqn:E. simpl in H. subst r'.
  rename E into H. unfold distance in H.
  pure_step H as s Hs. pure_step H as x Hx. pure_step H as sd Hsd.
  pure_step H as u Hdim. pure_step H as dm Hdm.
  simpl in Hdm. destruct (as_size_t (n_timestep sd)) as [n|e]; simpl in Hdm;
    [|discriminate Hdm].
  inversion Hdm; subst dm. clear Hdm.
  match type of H with
  | (if ?c then _ else _) _ = _ => destruct c; [discriminate H|]
  end.
  match type of H with
  | (if ?c then _ else _) _ = _ => destruct c; [discriminate H|]
  end.
  pure_step H as c_dim Hc. step H as [rc shape] Hinit.
  destruct (default_sample x sample) as [|z|l] eqn:Hsample.
  - discriminate H.
  - step H as [d j] Hone. apply sub_distance_call_OK in Hone.
    destruct Hone as (written & Hk & Hj).
    apply func_kernel_stores_no_position in Hk. simpl in Hk. subst written j.
    apply ret_OK in H. destruct H as [H _]. subst r. left. exists d. reflexivity.
  - pure_step H as samples Hsamples. step H as [dist ind] Hloop.
    apply distance_loop_subsequence in Hloop.
    destruct Hloop as (results & Hall & Hdist & Hind). simpl in Hdist, Hind.
    apply ret_OK in H. destruct H as [H _]. subst r dist ind.
    right. exists (map fst results). f_equal.
    rewrite carried_index_none.
    + rewrite !length_map. reflexivity.
    + apply Forall_map. clear - Hall. induction Hall as [|i res l rs Hk _ IH].
      * constructor.
      * constructor; [|exact IH].
        apply func_kernel_stores_no_position in Hk. exact Hk.
Qed.

Lemma callable_metric_returns_an_indeterminate_index_witness :
  snd (distance Demo.env (Demo.vector [0; 1; 0]%float)
         (Demo.matrix [[0; 0; 1; 0; 0]%float])
         0 SampleNone (MetricCallable Demo.manhattan) None true true
         (init_world Demo.always))
    = OK (DistIndex 2%float 0)
  /\
  ((exists d, DistIndex 2%float 0 = DistIndex d (indeterminate_size_t Demo.env)) \/
   (exists dist, DistIndex 2%float 0 =
                 DistIndexArray dist
                   (repeat (indeterminate_size_t Demo.env) (List.length dist)))).
Proof.
  split.
  - vm_compute. reflexivity.
  - apply (callable_metric_returns_an_indeterminate_index Demo.env
             (Demo.vector [0; 1; 0]%float) (Demo.matrix [[0; 0; 1; 0; 0]%float])
             0 SampleNone Demo.manhattan None (init_world Demo.always)
             (DistIndex 2%float 0)).
    vm_compute. reflexivity.
Defined.

(* ------------------------------------------------------------------ *)
(** ** The return flags *)

(** Case analysis on the innermost step of two runs of the same call. *)
Ltac no_result_inside c :=
  lazymatch c with
  | context [@OK] => fail
  | context [@Raise] => fail
  | _ => idtac
  end.

Ltac same_steps :=
  repeat (cbn [fst snd distances_of match_entries];
          match goal with
          | |- context [match ?c with (_, _) => _ end] =>
              no_result_inside c; first [destruct c as [? [?|?]] | destruct c]
          | |- context [match ?r with OK _ => _ | Raise _ => _ end] =>
              no_result_inside r; destruct r
          | |- context [if ?b then _ else _] => no_result_inside b; destruct b
          | |- context [match ?s with
                        | SampleNone => _ | SampleInt _ => _ | SampleSeq _ => _
                        end] => no_result_inside s; destruct s
          end);
  cbn [fst snd distances_of match_entries];
  try (split; reflexivity).

(** X21: [return_index] changes what [distance] hands back and nothing
    else: with and without it the call leaves the same trace, fails with the
    same exception, and returns the same distances. *)
Theorem return_index_changes_only_the_shape :
  forall (env : Env) (shapelet data : ndarray) (dim : Z) (sample : py_sample)
         (metric : py_metric) (params : option kwargs) (subsequence_distance : bool)
         (w : world),
    fst (distance env shapelet data dim sample metric params subsequence_distance true w)
    = fst (distance env shapelet data dim sample metric params subsequence_distance false w)
    /\
    match snd (distance env shapelet data dim sample metric params
                 subsequence_distance true w),
          snd (distance env shapelet data dim sample metric params
                 subsequence_distance false w) with
    | OK r1, OK r2 => distances_of r1 = distances_of r2
    | Raise e1, Raise e2 => e1 = e2
    | _, _ => False
    end.
Proof.
  intros. unfold distance, bind, lift, ret, raise. same_steps.
Qed.

(** X22: [return_distance] changes what [matches] hands back and nothing
    else: with and without it the call leaves the same trace, fails with the
    same exception, and returns the same offsets for every sample. *)
Theorem return_distance_changes_only_the_shape :
  forall (env : Env) (shapelet X : ndarray) (threshold : float) (dim : Z)
         (sample : py_sample) (metric : py_metric) (params : option kwargs)
         (w : world),
    fst (matches env shapelet X threshold dim sample metric params true w)
    = fst (matches env shapelet X threshold dim sample metric params false w)
    /\
    match snd (matches env shapelet X threshold dim sample metric params true w),
          snd (matches env shapelet X threshold dim sample metric params false w) with
    | OK r1, OK r2 => match_entries r1 = match_entries r2
    | Raise e1, Raise e2 => e1 = e2
    | _, _ => False
    end.
Proof.
  intros. unfold matches, bind, lift, ret, raise. same_steps.
Qed.

(* ------------------------------------------------------------------ *)
(** ** What [matches] does on every call *)

(** X23: [matches] is not implemented for a user metric: the
    callable-backed measure inherits the matching kernel of the base class,
    so whenever [check_array] hands on at least one sample index the call
    raises and returns no result. *)
Theorem matches_never_returns_for_a_callable :
  forall (env : Env) (shapelet X : ndarray) (threshold : float) (dim : Z)
         (sample : py_sample) (func : callable) (params : option kwargs)
         (return_distance : bool) (w : world),
    (forall l, check_array_int env l <> OK []) ->
    forall r,
      snd (matches env shapelet X threshold dim sample (MetricCallable func) params
             return_distance w) <> OK r.
Proof.
  intros env shapelet X threshold dim sample func params return_distance w Hne r H.
  destruct (matches _ _ _ _ _ _ _ _ _ w) as [w' r'] eqn:E. simpl in H. subst r'.
  rename E into H. unfold matches in H.
  pure_step H as s Hs. pure_step H as x Hx. pure_step H as u Hdim.
  pure_step H as sd Hsd. pure_step H as dm Hdm.
  simpl in Hdm. destruct (as_size_t (n_timestep sd)) as [n|e]; simpl in Hdm;
    [|discriminate Hdm].
  inversion Hdm; subst dm. clear Hdm.
  pure_step H as c_dim Hc. step H as [rc shape] Hinit.
  destruct (default_sample x sample) as [|z|l] eqn:Hsample.
  - discriminate H.
  - pure_step H as u0 Hcheck. pure_step H as t Ht.
    step H as [[m d] k] Hcall. apply sub_matches_call_OK in Hcall.
    destruct Hcall as (mc & dc & Hk). discriminate Hk.
  - pure_step H as samples Hsamples. step H as [ml dl] Hloop.
    apply matches_loop_entries in Hloop.
    destruct Hloop as (counts & ms & ds & _ & _ & Hks & _ & _).
    destruct Hks as [|i k rest counts' Hk _].
    + exact (Hne l Hsamples).
    + destruct Hk as (mc & dc & Hk). discriminate Hk.
Qed.

Lemma matches_never_returns_for_a_callable_witness :
  (forall l, check_array_int Demo.env l <> OK []) /\
  forall r,
    snd (matches Demo.env (Demo.vector [0; 1; 0]%float)
           (Demo.matrix [[0; 0; 1; 0; 0]%float]) 1%float 0 SampleNone
           (MetricCallable Demo.manhattan) None false (init_world Demo.always))
    <> OK r.
Proof.
  assert (Hne : forall l, check_array_int Demo.env l <> OK [])
    by (intros [|a l]; simpl; discriminate).
  split.
  - exact Hne.
  - apply (matches_never_returns_for_a_callable Demo.env (Demo.vector [0; 1; 0]%float)
             (Demo.matrix [[0; 0; 1; 0; 0]%float]) 1%float 0 SampleNone
             Demo.manhattan None false (init_world Demo.always) Hne).
Defined.




Lemma sub_matches_call_world (dm : DistanceMeasure) (shape : TSCopy) (sd : TSDatabase)
  (t : Z) (threshold : float) (w w' : world) (m : buffer Z) (d : buffer float) (n : Z) :
  sub_matches_call dm shape sd t threshold w = (w', OK (m, d, n)) ->
  w' = mkWorld (malloc_succeeds w) (S (S (brk w)))
         (trace w ++ [EvKernel K_sub_matches t; EvHandOver (Block (brk w));
                      EvHandOver (Block (S (brk w)))]) /\
  address m = Block (brk w) /\ address d = Block (S (brk w)).
Proof.
  unfold sub_matches_call, kernel_call, bind, log, lift, hand_over, ret.
  destruct (ts_copy_sub_matches dm shape sd t threshold) as [[[mc dc] k]|e];
    intros H; [|discriminate H].
  cbn [malloc_succeeds brk trace] in H. inversion H; subst. clear H.
  cbn [address]. rewrite <- !app_assoc. simpl. repeat split; reflexivity.
Qed.

(** X25: when the loop of [matches] runs to its end it adds to the trace,
    for each sample index in turn, the kernel call, the two buffers the
    kernel hands over, and the release of exactly these two buffers, before
    the kernel is entered for the next index; nothing else is allocated or
    freed. *)
Theorem matches_loop_frees_what_it_is_handed :
  forall (dm : DistanceMeasure) (shape : TSCopy) (sd : TSDatabase)
         (threshold : float) (samples : list Z)
         (ml : list (option (list Z))) (dl : list (option (list float)))
         (w w' : world) r,
    matches_loop dm shape sd threshold samples ml dl w = (w', OK r) ->
    trace w' = trace w ++ matches_loop_trace (brk w) samples /\
    brk w' = (brk w + 2 * List.length samples)%nat.
Proof.
  intros dm shape sd threshold samples.
  induction samples as [|elem rest IH]; intros ml dl w w' r H.
  - cbn [matches_loop] in H. apply ret_OK in H. destruct H as [_ Hw]. subst w'.
    simpl. rewrite app_nil_r. split; [reflexivity | lia].
  - cbn [matches_loop] in H.
    pure_step H as i Hi. apply as_size_t_OK in Hi. subst i.
    pure_step H as u Hcheck.
    step H as [[m d] n] Hcall.
    apply sub_matches_call_world in Hcall. destruct Hcall as (Hw0 & Hm & Hd).
    pure_step H as match_array Hma. pure_step H as distance_array Hda.
    step H as u1 Hf1. step H as u2 Hf2.
    unfold free, log in Hf1, Hf2. inversion Hf1 as [Hw1]. inversion Hf2 as [Hw2].
    apply IH in H. destruct H as [Htr Hbrk].
    rewrite Htr, Hbrk. subst. cbn [trace brk malloc_succeeds].
    rewrite Hm, Hd. rewrite <- !app_assoc. simpl.
    split; [reflexivity | lia].
Qed.

Lemma matches_loop_frees_what_it_is_handed_witness :
  matches_loop
    (mkDistanceMeasure 5 Base.init_ts_view Base.init_ts_copy_from_ndarray
       Base.ts_view_sub_distance Demo.Euclidean.ts_copy_sub_distance
       Demo.Euclidean.ts_copy_sub_matches
       (Base.ts_copy_distance Demo.Euclidean.ts_copy_sub_distance)
       Base.support_unaligned)
    (mkTSCopy 3 0 NAN NAN (mkBuffer (Block 0) [1; 1; 1]%float) 0 0)
    (mkTSDatabase 2 5 1 [0; 0; 0; 0; 0; 1; 1; 1; 1; 0]%float 5 1 0)
    1.5%float [1; 0] [] [] (mkWorld Demo.always 1 [EvMalloc 24 (Block 0)])
  = (mkWorld Demo.always 5
       [EvMalloc 24 (Block 0);
        EvKernel K_sub_matches 1; EvHandOver (Block 1); EvHandOver (Block 2);
        EvFree (Block 1); EvFree (Block 2);
        EvKernel K_sub_matches 0; EvHandOver (Block 3); EvHandOver (Block 4);
        EvFree (Block 3); EvFree (Block 4)],
     OK ([Some [0; 1; 2]; None], [Some [0; 0; 1]%float; None]))
  /\
  trace (mkWorld Demo.always 5
           [EvMalloc 24 (Block 0);
            EvKernel K_sub_matches 1; EvHandOver (Block 1); EvHandOver (Block 2);
            EvFree (Block 1); EvFree (Block 2);
            EvKernel K_sub_matches 0; EvHandOver (Block 3); EvHandOver (Block 4);
            EvFree (Block 3); EvFree (Block 4)])
  = trace (mkWorld Demo.always 1 [EvMalloc 24 (Block 0)]) ++ matches_loop_trace 1 [1; 0].
Proof.
  assert (Hrun :
    matches_loop
      (mkDistanceMeasure 5 Base.init_ts_view Base.init_ts_copy_from_ndarray
         Base.ts_view_sub_distance Demo.Euclidean.ts_copy_sub_distance
         Demo.Euclidean.ts_copy_sub_matches
         (Base.ts_copy_distance Demo.Euclidean.ts_copy_sub_distance)
         Base.support_unaligned)
      (mkTSCopy 3 0 NAN NAN (mkBuffer (Block 0) [1; 1; 1]%float) 0 0)
      (mkTSDatabase 2 5 1 [0; 0; 0; 0; 0; 1; 1; 1; 1; 0]%float 5 1 0)
      1.5%float [1; 0] [] [] (mkWorld Demo.always 1 [EvMalloc 24 (Block 0)])
    = (mkWorld Demo.always 5
         [EvMalloc 24 (Block 0);
          EvKernel K_sub_matches 1; EvHandOver (Block 1); EvHandOver (Block 2);
          EvFree (Block 1); EvFree (Block 2);
          EvKernel K_sub_matches 0; EvHandOver (Block 3); EvHandOver (Block 4);
          EvFree (Block 3); EvFree (Block 4)],
       OK ([Some [0; 1; 2]; None], [Some [0; 0; 1]%float; None])))
    by (vm_compute; reflexivity).
  split.
  - exact Hrun.
  - exact (proj1 (matches_loop_frees_what_it_is_handed _ _ _ _ _ _ _ _ _ _ Hrun)).
Defined.

(* ------------------------------------------------------------------ *)
(** ** Concrete calls for the checks of [distance] *)



(* ------------------------------------------------------------------ *)
(** ** The results of the two entry points, tied to the call *)








(** A kernel call adds one event to the trace and nothing else. *)
Lemma kernel_call_trace {A} (k : kernel) (t : Z) (r : result A) (w w' : world) (a : A) :
  kernel_call k t r w = (w', OK a) ->
  r = OK a /\ trace w' = trace w ++ [EvKernel k t].
Proof.
  unfold kernel_call, bind, log, lift. intros H.
  inversion H. split; reflexivity.
Qed.

Lemma sub_distance_call_trace (env : Env) (dm : DistanceMeasure) (shape : TSCopy)
  (sd : TSDatabase) (i min_index : Z) (w w' : world) (d : float) (j : Z) :
  sub_distance_call env dm shape sd (SampleInt i) min_index w = (w', OK (d, j)) ->
  trace w' = trace w ++ [EvKernel K_sub_distance i] /\
  exists written,
    ts_copy_sub_distance dm shape sd i = OK (d, written) /\
    j = match written with Some k => k | None => min_index end.
Proof.
  unfold sub_distance_call. intros H.
  pure_step H as t Ht. simpl in Ht. apply as_size_t_OK in Ht. subst t.
  step H as [d0 written] Hk. apply kernel_call_trace in Hk. destruct Hk as [Hk Htr].
  apply ret_OK in H. destruct H as [H Hw]. inversion H; subst.
  split; [exact Htr|]. exists written. split; [exact Hk | reflexivity].
Qed.

Lemma whole_distance_call_trace (env : Env) (dm : DistanceMeasure) (shape : TSCopy)
  (sd : TSDatabase) (z : Z) (w w' : world) (d : float) (j : Z) :
  whole_distance_call env dm shape sd (SampleInt z) w = (w', OK (d, j)) ->
  trace w' = trace w ++ [EvKernel K_distance z] /\
  ts_copy_distance dm shape sd z = OK d /\ j = 0.
Proof.
  unfold whole_distance_call. intros H.
  pure_step H as t Ht. simpl in Ht. apply as_size_t_OK in Ht. subst t.
  step H as min_dist Hk. apply kernel_call_trace in Hk. destruct Hk as [Hk Htr].
  apply ret_OK in H. destruct H as [H Hw]. inversion H; subst.
  split; [exact Htr|]. split; [exact Hk | reflexivity].
Qed.

(** In subsequence mode the loop of [distance] enters the kernel once for
    each sample index, in order, and does nothing else. *)
Lemma distance_loop_subsequence_trace (env : Env) (dm : DistanceMeasure) (shape : TSCopy)
  (sd : TSDatabase) (sample : py_sample) (samples : list Z) :
  forall (min_index : Z) (dist : list float) (ind : list Z) (w w' : world)
         (dist' : list float) (ind' : list Z),
    distance_loop env dm shape sd true sample samples min_index dist ind w
      = (w', OK (dist', ind')) ->
    trace w' = trace w ++ map (EvKernel K_sub_distance) samples /\
    exists results : list (float * option Z),
      Forall2 (fun i r => ts_copy_sub_distance dm shape sd i = OK r) samples results /\
      dist' = dist ++ map fst results /\
      ind' = ind ++ carried_index min_index (map snd results).
Proof.
  induction samples as [|i rest IH]; intros min_index dist ind w w' dist' ind' H.
  - cbn [distance_loop] in H. apply ret_OK in H. destruct H as [H Hw].
    inversion H; subst. simpl. rewrite !app_nil_r. split; [reflexivity|].
    exists []. simpl. rewrite !app_nil_r.
    split; [constructor|]. split; reflexivity.
  - cbn [distance_loop] in H. step H as [d j] Hone.
    apply sub_distance_call_trace in Hone.
    destruct Hone as (Htr & written & Hk & Hj).
    apply IH in H. destruct H as (Htr' & results & Hall & Hdist & Hind).
    split; [rewrite Htr', Htr, <- app_assoc; reflexivity|].
    exists ((d, written) :: results). split; [constructor; assumption|].
    simpl. rewrite Hdist, Hind, <- !app_assoc. simpl. subst j.
    split; reflexivity.
Qed.

(** X18: a batch call of [distance] in subsequence mode that returns has
    entered the kernel once for each sample index of the sequence, as
    [check_array] hands it on and in that order, and has done nothing else
    after the pattern was copied; the kernel ran on the copy of the validated
    pattern and the descriptor of the validated data. Entry i of the
    distances is the kernel's distance for index i, and entry i of the
    positions is the position the kernel stored for index i, or, when it
    stored none, the value left by the turn before (for the first turn, the
    uninitialised local). *)
Theorem distance_batch_subsequence_is_per_sample :
  forall (env : Env) (shapelet data : ndarray) (dim : Z) (l : list Z)
         (metric : py_metric) (params : option kwargs) (return_index : bool)
         (w w' : world) (r : distance_result),
    distance env shapelet data dim (SampleSeq l) metric params true return_index w
      = (w', OK r) ->
    exists (s x : ndarray) (sd : TSDatabase) (dm : DistanceMeasure)
           (rc : Z) (shape : TSCopy) (w0 : world)
           (samples : list Z) (results : list (float * option Z)),
      _validate_shapelet env shapelet = OK s /\
      _validate_data env data = OK x /\
      ts_database_new env x = OK sd /\
      new_distance_measure env metric (n_timestep sd) params = OK dm /\
      init_ts_copy_from_ndarray dm (indeterminate_TSCopy env) s dim w
        = (w0, OK (rc, shape)) /\
      check_array_int env l = OK samples /\
      Forall2 (fun i res => ts_copy_sub_distance dm shape sd i = OK res)
              samples results /\
      trace w' = trace w0 ++ map (EvKernel K_sub_distance) samples /\
      r = if return_index
          then DistIndexArray (map fst results)
                 (carried_index (indeterminate_size_t env) (map snd results))
          else DistArray (map fst results).
Proof.
  intros env shapelet data dim l metric params return_index w w' r H.
  unfold distance in H.
  pure_step H as s Hs. pure_step H as x Hx. pure_step H as sd Hsd.
  pure_step H as u Hdim. pure_step H as dm Hdm.
  simpl default_sample in H.
  match type of H with
  | (if ?c then _ else _) _ = _ => destruct c; [discriminate H|]
  end.
  match type of H with
  | (if ?c then _ else _) _ = _ => destruct c; [discriminate H|]
  end.
  pure_step H as c_dim Hc. apply as_size_t_OK in Hc. subst c_dim.
  step H as [rc shape] Hinit.
  pure_step H as samples Hsamples. step H as [dist ind] Hloop.
  apply distance_loop_subsequence_trace in Hloop.
  destruct Hloop as (Htr & results & Hall & Hdist & Hind). simpl in Hdist, Hind.
  exists s, x, sd, dm, rc, shape, w0, samples, results.
  split; [exact Hs|]. split; [exact Hx|]. split; [exact Hsd|].
  split; [exact Hdm|]. split; [exact Hinit|]. split; [exact Hsamples|].
  split; [exact Hall|].
  destruct return_index; apply ret_OK in H; destruct H as [H Hw]; subst;
    (split; [exact Htr | reflexivity]).
Qed.

Lemma distance_batch_subsequence_is_per_sample_witness :
  distance Demo.env (Demo.vector [0; 1]%float)
    (Demo.matrix [[0; 0; 1]; [0; 1; 5]]%float)
    0 (SampleSeq [1; 0]) (MetricStr "euclidean") None true true
    (init_world Demo.always)
    = (mkWorld Demo.always 1
         [EvMalloc (itemsize * 2) (Block 0);
          EvKernel K_sub_distance 1; EvKernel K_sub_distance 0],
       OK (DistIndexArray [0; 0]%float [0; 1]))
  /\
  exists (s x : ndarray) (sd : TSDatabase) (dm : DistanceMeasure)
         (rc : Z) (shape : TSCopy) (w0 : world)
         (samples : list Z) (results : list (float * option Z)),
    _validate_shapelet Demo.env (Demo.vector [0; 1]%float) = OK s /\
    _validate_data Demo.env (Demo.matrix [[0; 0; 1]; [0; 1; 5]]%float) = OK x /\
    ts_database_new Demo.env x = OK sd /\
    new_distance_measure Demo.env (MetricStr "euclidean") (n_timestep sd) None = OK dm /\
    init_ts_copy_from_ndarray dm (indeterminate_TSCopy Demo.env) s 0
      (init_world Demo.always) = (w0, OK (rc, shape)) /\
    check_array_int Demo.env [1; 0] = OK samples /\
    Forall2 (fun i res => ts_copy_sub_distance dm shape sd i = OK res) samples results /\
    trace (mkWorld Demo.always 1
             [EvMalloc (itemsize * 2) (Block 0);
              EvKernel K_sub_distance 1; EvKernel K_sub_distance 0])
      = trace w0 ++ map (EvKernel K_sub_distance) samples /\
    DistIndexArray [0; 0]%float [0; 1] =
      DistIndexArray (map fst results)
        (carried_index (indeterminate_size_t Demo.env) (map snd results)).
Proof.
  split.
  - vm_compute. reflexivity.
  - apply (distance_batch_subsequence_is_per_sample Demo.env (Demo.vector [0; 1]%float)
             (Demo.matrix [[0; 0; 1]; [0; 1; 5]]%float)
             0 [1; 0] (MetricStr "euclidean") None true
             (init_world Demo.always)).
    vm_compute. reflexivity.
Defined.

(** X19: a call of [distance] for one sample index that returns has entered
    one kernel once, for that index, and has done nothing else after the
    pattern was copied; the kernel ran on the copy of the validated pattern
    and the descriptor of the validated data. The result is the kernel's: in
    subsequence mode the best-window distance with the position the kernel
    stored (the uninitialised local if it stored none), in whole-series mode
    the whole-series distance with position 0; without [return_index] the
    distance alone. *)
Theorem distance_single_sample_is_the_kernel_result :
  forall (env : Env) (shapelet data : ndarray) (dim z : Z)
         (metric : py_metric) (params : option kwargs)
         (subsequence_distance return_index : bool)
         (w w' : world) (r : distance_result),
    distance env shapelet data dim (SampleInt z) metric params
      subsequence_distance return_index w = (w', OK r) ->
    exists (s x : ndarray) (sd : TSDatabase) (dm : DistanceMeasure)
           (rc : Z) (shape : TSCopy) (w0 : world) (d : float) (j : Z),
      _validate_shapelet env shapelet = OK s /\
      _validate_data env data = OK x /\
      ts_database_new env x = OK sd /\
      new_distance_measure env metric (n_timestep sd) params = OK dm /\
      init_ts_copy_from_ndarray dm (indeterminate_TSCopy env) s dim w
        = (w0, OK (rc, shape)) /\
      trace w' = trace w0 ++
                 [EvKernel (if subsequence_distance then K_sub_distance else K_distance) z] /\
      r = (if return_index then DistIndex d j else Dist d) /\
      if subsequence_distance
      then exists written,
             ts_copy_sub_distance dm shape sd z = OK (d, written) /\
             j = match written with Some k => k | None => indeterminate_size_t env end
      else ts_copy_distance dm shape sd z = OK d /\ j = 0.
Proof.
  intros env shapelet data dim z metric params sub return_index w w' r H.
  unfold distance in H.
  pure_step H as s Hs. pure_step H as x Hx. pure_step H as sd Hsd.
  pure_step H as u Hdim. pure_step H as dm Hdm.
  simpl default_sample in H.
  match type of H with
  | (if ?c then _ else _) _ = _ => destruct c; [discriminate H|]
  end.
  match type of H with
  | (if ?c then _ else _) _ = _ => destruct c; [discriminate H|]
  end.
  pure_step H as c_dim Hc. apply as_size_t_OK in Hc. subst c_dim.
  step H as [rc shape] Hinit.
  step H as [d j] Hone.
  exists s, x, sd, dm, rc, shape, w0, d, j.
  split; [exact Hs|]. split; [exact Hx|]. split; [exact Hsd|].
  split; [exact Hdm|]. split; [exact Hinit|].
  assert (Hw : w' = w1 /\ r = (if return_index then DistIndex d j else Dist d)).
  { destruct return_index; apply ret_OK in H; destruct H as [H Hw]; subst;
      split; reflexivity. }
  destruct Hw as [Hw Hr]. subst w'.
  destruct sub.
  - apply sub_distance_call_trace in Hone. destruct Hone as [Htr Hk].
    split; [exact Htr|]. split; [exact Hr | exact Hk].
  - apply whole_distance_call_trace in Hone. destruct Hone as [Htr Hk].
    split; [exact Htr|]. split; [exact Hr | exact Hk].
Qed.

Lemma distance_single_sample_is_the_kernel_result_witness :
  distance Demo.env (Demo.vector [0; 1; 0]%float)
    (Demo.matrix [[0; 0; 1; 0; 0]%float])
    0 (SampleInt 0) (MetricStr "euclidean") None true true
    (init_world Demo.always)
    = (mkWorld Demo.always 1
         [EvMalloc (itemsize * 3) (Block 0); EvKernel K_sub_distance 0],
       OK (DistIndex 0%float 1))
  /\
  exists (s x : ndarray) (sd : TSDatabase) (dm : DistanceMeasure)
         (rc : Z) (shape : TSCopy) (w0 : world) (d : float) (j : Z),
    _validate_shapelet Demo.env (Demo.vector [0; 1; 0]%float) = OK s /\
    _validate_data Demo.env (Demo.matrix [[0; 0; 1; 0; 0]%float]) = OK x /\
    ts_database_new Demo.env x = OK sd /\
    new_distance_measure Demo.env (MetricStr "euclidean") (n_timestep sd) None = OK dm /\
    init_ts_copy_from_ndarray dm (indeterminate_TSCopy Demo.env) s 0
      (init_world Demo.always) = (w0, OK (rc, shape)) /\
    trace (mkWorld Demo.always 1
             [EvMalloc (itemsize * 3) (Block 0); EvKernel K_sub_distance 0])
      = trace w0 ++ [EvKernel K_sub_distance 0] /\
    DistIndex 0%float 1 = DistIndex d j /\
    exists written,
      ts_copy_sub_distance dm shape sd 0 = OK (d, written) /\
      j = match written with Some k => k | None => indeterminate_size_t Demo.env end.
Proof.
  split.
  - vm_compute. reflexivity.
  - apply (distance_single_sample_is_the_kernel_result Demo.env
             (Demo.vector [0; 1; 0]%float) (Demo.matrix [[0; 0; 1; 0; 0]%float])
             0 0 (MetricStr "euclidean") None true true
             (init_world Demo.always)).
    vm_compute. reflexivity.
Defined.
